(** * PAWS-2526: the data-reduction pipeline of the water-distribution testbed

    A shallow embedding of [functions/functions.py] and of the orchestrating
    [main.py], and the properties of the specification checked against it.

    Numbers.  The Python code computes with IEEE doubles.  Two models of them
    are used.  The control flow, the exceptions, the warnings and the values
    of the scenario of the specification are checked over [Num]: real
    numbers extended with one not-a-number value, with exact arithmetic (no
    rounding, no overflow, no infinities) and the propagation of
    not-a-number of IEEE arithmetic.  The values that the integration and
    the aggregation return are checked over [Binary64]: the binary64 doubles
    themselves, every operation rounded as the processor rounds it.

    Effects.  A call can print, warn, read the input archive and raise.  The
    model is a writer monad over a trace of events with an exception layer on
    top; the archive is a read-only finite map from paths to objects, and
    the store of the results is a tree of groups. *)

From Stdlib Require Import Floats.
From Stdlib Require Import Reals Lra ZArith.
From stdpp Require Import base option list strings gmap pretty.

(* ===================================================================== *)
(** ** Numbers *)
(* ===================================================================== *)

Module Num.

(** A double: a real number or not-a-number. *)
Inductive number : Type :=
| NaN : number
| Fin (r : R) : number.

Definition add (x y : number) : number :=
  match x, y with
  | Fin a, Fin b => Fin (a + b)
  | _, _ => NaN
  end.

Definition sub (x y : number) : number :=
  match x, y with
  | Fin a, Fin b => Fin (a - b)
  | _, _ => NaN
  end.

Definition mul (x y : number) : number :=
  match x, y with
  | Fin a, Fin b => Fin (a * b)
  | _, _ => NaN
  end.

(** [x == 0.0]; a comparison with not-a-number is false. *)
Definition is_zero (x : number) : bool :=
  match x with
  | Fin a => if Req_dec_T a 0 then true else false
  | NaN => false
  end.

(** Array division (numpy): no exception; [0/0] is not-a-number.  The only
    array division of the program divides by an element count. *)
Definition div (x y : number) : number :=
  match x, y with
  | Fin a, Fin b => if Req_dec_T b 0 then NaN else Fin (a / b)
  | _, _ => NaN
  end.

(** [np.sqrt]: not-a-number below zero. *)
Definition sqrt (x : number) : number :=
  match x with
  | Fin a => if Rlt_dec a 0 then NaN else Fin (R_sqrt.sqrt a)
  | NaN => NaN
  end.

(** [np.maximum] and [np.minimum] propagate not-a-number. *)
Definition maximum (x y : number) : number :=
  match x, y with
  | Fin a, Fin b => Fin (Rmax a b)
  | _, _ => NaN
  end.

Definition minimum (x y : number) : number :=
  match x, y with
  | Fin a, Fin b => Fin (Rmin a b)
  | _, _ => NaN
  end.

(** [x >= y], false when either side is not-a-number. *)
Definition geb (x y : number) : bool :=
  match x, y with
  | Fin a, Fin b => if Rle_dec b a then true else false
  | _, _ => false
  end.

(** The order of the doubles as propositions: both are false as soon as
    one side is not-a-number. *)
Definition lt (x y : number) : Prop :=
  match x, y with
  | Fin a, Fin b => (a < b)%R
  | _, _ => False
  end.

Definition le (x y : number) : Prop :=
  match x, y with
  | Fin a, Fin b => (a <= b)%R
  | _, _ => False
  end.

Definition of_nat (n : nat) : number := Fin (INR n).

Definition is_nan (x : number) : bool :=
  match x with NaN => true | Fin _ => false end.

End Num.

Export Num (number, NaN, Fin).

(* ===================================================================== *)
(** ** Python values, exceptions and the effect monad *)
(* ===================================================================== *)

(** What the numeric helpers pass around: a float or [None]. *)
Inductive pyobj : Type :=
| PyNone : pyobj
| PyFloat (x : number) : pyobj.

Inductive exn : Type :=
| TypeError
| ZeroDivisionError
| IndexError
| KeyError
| AttributeError.

(** What a run of the program leaves behind besides its result. *)
Inductive event : Type :=
| Warn (msg : string)                 (* warnings.warn *)
| Print (msg : string)                (* print *)
| AttrAccess (path key : string)      (* read_metadata opens the archive *)
| DataAccess (path : string).         (* read_data opens the archive *)

Inductive result (A : Type) : Type :=
| Ok (a : A)
| Raise (e : exn).
Arguments Ok {A} a.
Arguments Raise {A} e.

(** A computation: the events it produced, and a value or an exception. *)
Definition M (A : Type) : Type := list event * result A.

Definition ret {A} (a : A) : M A := ([], Ok a).
Definition raise {A} (e : exn) : M A := ([], Raise e).
Definition emit (ev : event) : M unit := ([ev], Ok tt).

Definition bind {A B} (k : A → M B) (m : M A) : M B :=
  match m with
  | (tr, Ok a) => let '(tr', r) := k a in (tr ++ tr', r)
  | (tr, Raise e) => (tr, Raise e)
  end.

(** stdpp's monad notations: [x ← m; k] and [m;; k]. *)
#[export] Instance M_ret : MRet M := @ret.
#[export] Instance M_bind : MBind M := @bind.

Definition trace {A} (m : M A) : list event := fst m.
Definition outcome {A} (m : M A) : result A := snd m.

(** A left fold whose step has effects: the [for] loops. *)
Fixpoint foldM {A B} (f : A → B → M A) (a : A) (l : list B) : M A :=
  match l with
  | [] => mret a
  | b :: l' => a' ← f a b; foldM f a' l'
  end.

(** [xs[i]] on a sequence: out of range raises. *)
Definition index {A} (xs : list A) (i : nat) : M A :=
  match xs !! i with
  | Some x => mret x
  | None => raise IndexError
  end.

(** [range(n)] for an integer [n]: empty when [n <= 0]. *)
Definition range (n : Z) : list nat := seq 0 (Z.to_nat n).

(** Python's arithmetic on floats: an operand that is [None] is a
    [TypeError]; true division by zero is a [ZeroDivisionError]. *)
Definition py_add (x y : pyobj) : M pyobj :=
  match x, y with
  | PyFloat a, PyFloat b => mret (PyFloat (Num.add a b))
  | _, _ => raise TypeError
  end.

Definition py_sub (x y : pyobj) : M pyobj :=
  match x, y with
  | PyFloat a, PyFloat b => mret (PyFloat (Num.sub a b))
  | _, _ => raise TypeError
  end.

Definition py_mul (x y : pyobj) : M pyobj :=
  match x, y with
  | PyFloat a, PyFloat b => mret (PyFloat (Num.mul a b))
  | _, _ => raise TypeError
  end.

Definition py_truediv (x y : pyobj) : M pyobj :=
  match x, y with
  | PyFloat a, PyFloat b =>
      if Num.is_zero b then raise ZeroDivisionError
      else mret (PyFloat (Num.div a b))
  | _, _ => raise TypeError
  end.

(* ===================================================================== *)
(** ** The input archive *)
(* ===================================================================== *)

(** An attribute value: the archive holds a float setpoint and an integer
    start index. *)
Inductive attr : Type :=
| AttrFloat (x : number)
| AttrInt (z : Z).

(** An object at a path: a group, or a dataset with its 1-D content. *)
Inductive h5obj : Type :=
| H5Group (attrs : gmap string attr)
| H5Dataset (attrs : gmap string attr) (data : list number).

Definition obj_attrs (o : h5obj) : gmap string attr :=
  match o with H5Group a => a | H5Dataset a _ => a end.

(** The file: its objects by path, or a file that cannot be opened (with the
    text of the error). *)
Inductive h5file : Type :=
| H5File (objs : gmap string h5obj)
| H5Unavailable (msg : string).

(* ===================================================================== *)
(** ** functions.py *)
(* ===================================================================== *)

(** An argument that is a string or a list of strings. *)
Inductive str_or_list : Type :=
| Str (s : string)
| Lst (l : list string).

Definition as_list (x : str_or_list) : list string :=
  match x with Str s => [s] | Lst l => l end.

Definition generate_group_name
    (controller topology disruption : str_or_list) : list string :=
  let controller := as_list controller in
  let topology := as_list topology in
  let disruption := as_list disruption in
  c ← controller; t ← topology; d ← disruption;
  [c +:+ "_" +:+ t +:+ "_" +:+ d].

(** The two accessors are modelled for the names h5py can look up, as the
    paths and the two fixed attribute names of the pipeline are.  A name
    h5py refuses (an empty attribute name) makes it raise an exception that
    [read_metadata] does not catch; such names are outside the model. *)
Definition read_metadata (file : h5file) (path attr_key : string)
  : M (option attr) :=
  emit (AttrAccess path attr_key);;
  match file with
  | H5File f =>
      match f !! path with
      | None =>
          emit (Warn ("Path '" +:+ path +:+ "' does not exist in the HDF5 file."));;
          mret None
      | Some obj =>
          match obj_attrs obj !! attr_key with
          | None =>
              emit (Warn ("Attribute '" +:+ attr_key
                            +:+ "' does not exist at path '" +:+ path +:+ "'."));;
              mret None
          | Some v => mret (Some v)
          end
      end
  | H5Unavailable _ =>
      emit (Warn "Could not open HDF5 file.");;
      mret None
  end.

Definition read_data (file : h5file) (path : string)
  : M (option (list number)) :=
  emit (DataAccess path);;
  match file with
  | H5File f =>
      match f !! path with
      | None =>
          emit (Warn ("Dataset '" +:+ path +:+ "' does not exist."));;
          mret None
      | Some (H5Group _) =>
          emit (Warn ("Path '" +:+ path +:+ "' is not a dataset."));;
          mret None
      | Some (H5Dataset _ data) => mret (Some data)
      end
  | H5Unavailable msg =>
      emit (Warn msg);;
      mret None
  end.

(** [np.clip(x, lo, hi)] is [minimum(maximum(x, lo), hi)], element-wise. *)
Definition clip (lo hi x : number) : number :=
  Num.minimum (Num.maximum x lo) hi.

Definition cap_service_data (service_data : list number) (setpoint : number)
  : list number :=
  let capped := clip (Fin 0) setpoint <$> service_data in
  capped.

(** [np.all(array >= 0.0)]. *)
Definition check_negative_values (array : list number) : bool :=
  forallb (fun x => Num.geb x (Fin 0)) array.

Definition integral_with_time_step (data time_steps : list number)
  : M pyobj :=
  if negb (length data =? length time_steps)%nat then
    emit (Warn "Data and time arrays have different lengths.");;
    mret PyNone
  else
    integral ← foldM (fun integral i =>
        t1 ← index time_steps (i + 1);
        t0 ← index time_steps i;
        let dt := Num.sub t1 t0 in
        d0 ← index data i;
        d1 ← index data (i + 1);
        mret (Num.add integral
                (Num.mul (Num.mul (Fin 0.5) (Num.add d0 d1)) dt)))
      (Fin 0) (range (Z.of_nat (length data) - 1));
    mret (PyFloat integral).

Definition calculate_service_loss (service_fill service_target : pyobj)
  : M pyobj :=
  q ← py_truediv service_fill service_target;
  d ← py_sub (PyFloat (Fin 1)) q;
  py_mul (PyFloat (Fin 100)) d.

Definition convert_Ws_to_Wh (energy_in_Ws : pyobj) : M pyobj :=
  py_truediv energy_in_Ws (PyFloat (Fin 3600)).

(** [np.asarray(data, dtype=float)]: a float is kept, and numpy's conversion
    of a Python object to a double maps [None] to not-a-number. *)
Definition asarray_float (data : list pyobj) : list number :=
  (fun o => match o with PyNone => NaN | PyFloat x => x end) <$> data.

(** [np.sum], [np.mean] and [np.std] (population standard deviation: the sum
    of squared deviations is divided by the element count).  Over exact
    numbers the order in which numpy adds does not matter; [Binary64] below
    follows it. *)
Definition np_sum (arr : list number) : number :=
  foldl Num.add (Fin 0) arr.

Definition np_mean (arr : list number) : number :=
  Num.div (np_sum arr) (Num.of_nat (length arr)).

Definition np_std (arr : list number) : number :=
  let arrmean := np_mean arr in
  let x := (fun a => Num.sub a arrmean) <$> arr in
  let x := (fun a => Num.mul a a) <$> x in
  Num.sqrt (Num.div (np_sum x) (Num.of_nat (length arr))).

Definition calculate_mean_and_std (data : list pyobj) : M (number * number) :=
  let arr := asarray_float data in
  mret (np_mean arr, np_std arr).

(* ===================================================================== *)
(** ** The numeric helpers on binary64 doubles *)
(* ===================================================================== *)

(** The integration and the aggregation once more, on the doubles the Python
    code computes with: [float] is IEEE binary64, and every operation rounds
    to nearest, ties to even, overflows to an infinity and propagates
    not-a-number.  The values these two functions return are checked on this
    model. *)
Module Binary64.

(** An entry of a Python list of results: a float or [None]. *)
Inductive pyobj : Type :=
| PyNone : pyobj
| PyFloat (x : float) : pyobj.

Definition integral_with_time_step (data time_steps : list float)
  : M pyobj :=
  if negb (length data =? length time_steps)%nat then
    emit (Warn "Data and time arrays have different lengths.");;
    mret PyNone
  else
    integral ← foldM (fun integral i =>
        t1 ← index time_steps (i + 1);
        t0 ← index time_steps i;
        let dt := (t1 - t0)%float in
        d0 ← index data i;
        d1 ← index data (i + 1);
        mret (integral + 0.5 * (d0 + d1) * dt)%float)
      0%float (range (Z.of_nat (length data) - 1));
    mret (PyFloat integral).

(** [np.asarray(data, dtype=float)]: a float is kept, and numpy's conversion
    of a Python object to a double maps [None] to not-a-number. *)
Definition asarray_float (data : list pyobj) : list float :=
  (fun o => match o with PyNone => nan | PyFloat x => x end) <$> data.

(** [np.sum] adds in numpy's pairwise order.  Fewer than eight elements are
    added one after the other from [0.0].  Up to 128 elements are added in
    eight lanes, lane [j] taking the elements [j], [j + 8], ...; the lanes are
    added as [((r0 + r1) + (r2 + r3)) + ((r4 + r5) + (r6 + r7))] and the
    elements past the last full block of eight are added to that one after
    the other.  A longer array is split in two halves, the first a multiple
    of eight long, and the sums of the halves are added. *)
Definition add_lanes (r chunk : list float) : list float :=
  zip_with PrimFloat.add r chunk.

Fixpoint unrolled_loop (fuel : nat) (r a : list float)
    : list float * list float :=
  match fuel with
  | O => (r, a)
  | S fuel' =>
      if (8 <=? length a)%nat
      then unrolled_loop fuel' (add_lanes r (take 8 a)) (drop 8 a)
      else (r, a)
  end.

Definition lane (r : list float) (j : nat) : float := nth j r nan.

(** The depth of the splitting is bounded by [fuel]; the length of the array
    is always enough. *)
Fixpoint pairwise_sum (fuel : nat) (a : list float) : float :=
  let n := length a in
  if (n <? 8)%nat then foldl PrimFloat.add 0%float a
  else if (n <=? 128)%nat then
    let '(r, rest) := unrolled_loop n (take 8 a) (drop 8 a) in
    let res := (((lane r 0 + lane r 1) + (lane r 2 + lane r 3))
                + ((lane r 4 + lane r 5) + (lane r 6 + lane r 7)))%float in
    foldl PrimFloat.add res rest
  else
    match fuel with
    | O => nan
    | S fuel' =>
        let n2 := (n / 2 - (n / 2) mod 8)%nat in
        (pairwise_sum fuel' (take n2 a) + pairwise_sum fuel' (drop n2 a))%float
    end.

(** The reduction starts from the identity [0.0] of the addition (numpy
    versions differ in the sign of a sum that is zero; here it is [+0.0]). *)
Definition np_sum (arr : list float) : float :=
  (0 + pairwise_sum (length arr) arr)%float.

(** The element count as a double. *)
Definition count (n : nat) : float :=
  PrimFloat.of_uint63 (Uint63.of_Z (Z.of_nat n)).

(** [np.mean] and [np.std] (population standard deviation: the sum of the
    squared deviations is divided by the element count); the mean of no
    element is [0.0 / 0], not-a-number. *)
Definition np_mean (arr : list float) : float :=
  (np_sum arr / count (length arr))%float.

Definition np_std (arr : list float) : float :=
  let arrmean := np_mean arr in
  let x := (fun a => a - arrmean)%float <$> arr in
  let x := (fun a => a * a)%float <$> x in
  PrimFloat.sqrt (np_sum x / count (length arr))%float.

Definition calculate_mean_and_std (data : list pyobj) : M (float * float) :=
  let arr := asarray_float data in
  mret (np_mean arr, np_std arr).

(** The trapezoidal rule as the specification words it, in doubles: the
    terms [0.5 * (signal[i] + signal[i+1]) * (timeBase[i+1] - timeBase[i])]
    added in the order of [i], from [0.0]. *)
Definition trapezoid_sum (signal timeBase : list float) : float :=
  foldl (fun acc i =>
           acc + 0.5 * (nth i signal nan + nth (i + 1) signal nan)
                 * (nth (i + 1) timeBase nan - nth i timeBase nan))%float
        0%float (seq 0 (length signal - 1)).

End Binary64.

(* ===================================================================== *)
(** ** The result store *)
(* ===================================================================== *)

(** A [pd.DataFrame]: its column names and its rows in order, each with its
    index label. *)
Record DataFrame : Type := mkDataFrame {
  df_columns : list string;
  df_rows : list (string * list number)
}.

(** [df.loc[label] = values]: the row with that label is overwritten where it
    is; a new label is appended below the others. *)
Fixpoint loc_set_rows (label : string) (values : list number)
    (rows : list (string * list number)) : list (string * list number) :=
  match rows with
  | [] => [(label, values)]
  | (l, v) :: rows' =>
      if decide (l = label) then (l, values) :: rows'
      else (l, v) :: loc_set_rows label values rows'
  end.

Definition loc_set (label : string) (values : list number) (df : DataFrame)
  : DataFrame :=
  mkDataFrame (df_columns df) (loc_set_rows label values (df_rows df)).

(** The labels of the rows, in order ([df.index]). *)
Definition df_index (df : DataFrame) : list string := fst <$> df_rows df.

(** The unit pandas keeps in a group of a [pd.HDFStore]: the stored table
    and the attributes of its storer; the attributes hold dictionaries of
    strings. *)
Record storer : Type := mkStorer {
  st_table : DataFrame;
  st_attrs : gmap string (gmap string string)
}.

(** [df.empty]: the table has no row or no column. *)
Definition df_empty (df : DataFrame) : bool :=
  match df_columns df, df_rows df with
  | _ :: _, _ :: _ => false
  | _, _ => true
  end.

(** A [pd.HDFStore] is a tree of HDF5 groups.  A group holds the unit pandas
    stored there (a table and the attributes of its storer), or none when it
    is a plain group, and its child groups by name.  A key of the store is
    the path of a group: the model holds a key as the list of the names on
    its path, so ["a/b"] and ["/a/b"] are both [["a"; "b"]]. *)
#[local] Unset Elimination Schemes.
Inductive hdf_group : Type :=
  Group (unit : option storer) (children : gmap string hdf_group).
#[local] Set Elimination Schemes.

Definition group_unit (g : hdf_group) : option storer :=
  match g with Group unit _ => unit end.

Definition group_children (g : hdf_group) : gmap string hdf_group :=
  match g with Group _ children => children end.

Definition empty_group : hdf_group := Group None ∅.

(** [store.get_node(key)]. *)
Fixpoint get_node (key : list string) (g : hdf_group) : option hdf_group :=
  match key with
  | [] => Some g
  | name :: key' =>
      match group_children g !! name with
      | Some child => get_node key' child
      | None => None
      end
  end.

(** [key in store]: a group exists at the path. *)
Definition store_contains (key : list string) (store : hdf_group) : bool :=
  bool_decide (is_Some (get_node key store)).

(** [store.remove(key)]: the group goes with everything below it. *)
Fixpoint store_remove (key : list string) (store : hdf_group) : hdf_group :=
  match key with
  | [] => store
  | name :: key' =>
      match key' with
      | [] => Group (group_unit store) (delete name (group_children store))
      | _ :: _ =>
          match group_children store !! name with
          | Some child =>
              Group (group_unit store)
                (<[name := store_remove key' child]> (group_children store))
          | None => store
          end
      end
  end.

(** The group at the path becomes [new]; the groups above it that do not
    exist are created as plain groups. *)
Fixpoint put_node (key : list string) (new : hdf_group) (store : hdf_group)
    : hdf_group :=
  match key with
  | [] => new
  | name :: key' =>
      Group (group_unit store)
        (<[name := put_node key' new
                     (default empty_group (group_children store !! name))]>
           (group_children store))
  end.

(** [store.put(key, df, 'table')]: a table without rows or columns is not
    written at all; any other table replaces the group at the key by a fresh
    group holding the table. *)
Definition store_put (key : list string) (df : DataFrame) (store : hdf_group)
    : hdf_group :=
  if df_empty df then store
  else put_node key (Group (Some (mkStorer df ∅)) ∅) store.

(** [store.get_storer(key)]: no group at the key is a [KeyError], a plain
    group is a [TypeError]. *)
Definition get_storer (key : list string) (store : hdf_group) : M storer :=
  match get_node key store with
  | None => raise KeyError
  | Some (Group None _) => raise TypeError
  | Some (Group (Some st) _) => mret st
  end.

(** [store.get_storer(key).attrs.<name> = value]. *)
Definition set_storer_attr (key : list string) (name : string)
    (value : gmap string string) (store : hdf_group) : M hdf_group :=
  st ← get_storer key store;
  let st := mkStorer (st_table st) (<[name := value]> (st_attrs st)) in
  mret (put_node key
          (Group (Some st)
             (default ∅ (group_children <$> get_node key store)))
          store).

(** The function takes the store of the file at [hdf5_path] and gives the
    store it leaves there. *)
Definition save_dataframe_in_hdf5_with_metadata
    (df : DataFrame) (store : hdf_group) (group_name : list string)
    (metadata : gmap string string) : M hdf_group :=
  let store :=
    if store_contains group_name store then store_remove group_name store
    else store in
  let store := store_put group_name df store in
  set_storer_attr group_name "metadata" metadata store.

Definition read_plot_data (store : hdf_group) (group_path : list string)
  : M (DataFrame * gmap string string) :=
  st ← get_storer group_path store;           (* store[group_path] *)
  let df := st_table st in
  st ← get_storer group_path store;
  match st_attrs st !! "metadata" with
  | None => raise AttributeError
  | Some metadata => mret (df, metadata)
  end.

(** A key names a group below the root: at least one name, none empty. *)
Definition is_key (key : list string) : Prop :=
  key ≠ [] ∧ Forall (fun name => name ≠ "") key.

(** Two keys of which neither lies on the path of the other. *)
Definition apart (key1 key2 : list string) : Prop :=
  ¬ key1 `prefix_of` key2 ∧ ¬ key2 `prefix_of` key1.

(* ===================================================================== *)
(** ** main.py *)
(* ===================================================================== *)

(** [xs[start:]]: [None] keeps the whole sequence, a negative index counts
    from the end, and an index outside the sequence is clamped. *)
Definition slice_from {A} (start : option Z) (xs : list A) : list A :=
  match start with
  | None => xs
  | Some z =>
      if (0 <=? z)%Z then drop (Z.to_nat z) xs
      else drop (Z.to_nat (Z.of_nat (length xs) + z)) xs
  end.

(** The attribute read for the start index, used as a slice bound: absent is
    [None], an integer is itself, a float is not a valid index. *)
Definition as_slice_index (a : option attr) : M (option Z) :=
  match a with
  | None => mret None
  | Some (AttrInt z) => mret (Some z)
  | Some (AttrFloat _) => raise TypeError
  end.

(** The setpoint as the number the numeric code sees. *)
Definition attr_number (a : attr) : number :=
  match a with AttrFloat x => x | AttrInt z => Fin (IZR z) end.

(** [f"run_{run_id:02d}"]. *)
Definition run_name (run_id : nat) : string :=
  "run_" +:+ (if (run_id <? 10)%nat then "0" +:+ pretty run_id
              else pretty run_id).

(** The body of the inner loop for data that is all there: lines 84 to 120.
    It gives the pair appended to the two lists. *)
Definition run_metrics (group run : string) (setpoint : number)
    (start_time_index : option attr)
    (tank_pressure pump_1 pump_2 time : list number) : M (pyobj * pyobj) :=
  let service_fill := cap_service_data tank_pressure setpoint in
  (if negb (check_negative_values pump_1 && check_negative_values pump_2)
   then emit (Print ("Warning: Negative power values in " +:+ group
                       +:+ ", " +:+ run))
   else mret tt);;
  start ← as_slice_index start_time_index;
  service_fill_integral ←
    integral_with_time_step (slice_from start service_fill)
                            (slice_from start time);
  let service_target_signal :=
    (fun _ => setpoint) <$> slice_from start service_fill in
  service_target_integral ←
    integral_with_time_step service_target_signal (slice_from start time);
  service_loss_percent ←
    calculate_service_loss service_fill_integral service_target_integral;
  e1 ← integral_with_time_step pump_1 time;
  e2 ← integral_with_time_step pump_2 time;
  total_energy_ws ← py_add e1 e2;
  total_energy_wh ← convert_Ws_to_Wh total_energy_ws;
  mret (service_loss_percent, total_energy_wh).

(** One turn of the inner loop: the reads, the missing-data path, and the
    two appends. *)
Definition run_step (file_path : h5file) (group : string) (setpoint : number)
    (lists : list pyobj * list pyobj) (run_id : nat)
  : M (list pyobj * list pyobj) :=
  let '(groups_service_loss, groups_power) := lists in
  let run := run_name run_id in
  let base_path := group +:+ "/" +:+ run in
  start_time_index ← read_metadata file_path base_path "analyse_start_time_index";
  tank_pressure ← read_data file_path (base_path +:+ "/tank_1_pressure");
  pump_1 ← read_data file_path (base_path +:+ "/pump_1_power");
  pump_2 ← read_data file_path (base_path +:+ "/pump_2_power");
  time ← read_data file_path (base_path +:+ "/time");
  match tank_pressure, pump_1, pump_2, time with
  | Some tank_pressure, Some pump_1, Some pump_2, Some time =>
      '(service_loss_percent, total_energy_wh) ←
        run_metrics group run setpoint start_time_index
                    tank_pressure pump_1 pump_2 time;
      mret (groups_service_loss ++ [service_loss_percent],
            groups_power ++ [total_energy_wh])
  | _, _, _, _ =>
      emit (Print ("Warning: Missing data in " +:+ group +:+ ", " +:+ run
                     +:+ ". Appending NaN values."));;
      mret (groups_service_loss ++ [PyFloat NaN],
            groups_power ++ [PyFloat NaN])
  end.

(** [range(1, 11)]. *)
Definition run_ids : list nat := seq 1 10.

(** One turn of the outer loop: lines 46 to 134. *)
Definition group_step (file_path : h5file) (considered_groups : list string)
    (processed_data : DataFrame) (group : string) : M DataFrame :=
  if negb (bool_decide (group ∈ considered_groups)) then mret processed_data
  else
    setpoint ← read_metadata file_path group "setpoint";
    match setpoint with
    | None =>
        emit (Print ("Warning: No setpoint found for group '" +:+ group
                       +:+ "'. Skipping this group."));;
        mret processed_data
    | Some setpoint =>
        '(groups_service_loss, groups_power) ←
          foldM (run_step file_path group (attr_number setpoint))
                ([], []) run_ids;
        '(mean_service_loss, std_service_loss) ←
          calculate_mean_and_std groups_service_loss;
        '(mean_power, std_power) ← calculate_mean_and_std groups_power;
        mret (loc_set group
                [mean_power; std_power; mean_service_loss; std_service_loss]
                processed_data)
    end.

Definition empty_processed_data : DataFrame :=
  mkDataFrame
    ["power_mean"; "power_std"; "service_loss_mean"; "service_loss_std"] [].

(** The outer loop over the enumerated groups. *)
Definition process_groups (file_path : h5file)
    (group_names considered_groups : list string) : M DataFrame :=
  foldM (group_step file_path considered_groups)
        empty_processed_data group_names.

Definition controllers : list string := ["ARIMA"; "DTW"; "PID"].
Definition topologies : list string := ["Coupled"; "Decentral"; "Central"].
Definition disruptions : list string :=
  ["BlockageConstant"; "BlockageCosine"; "PumpOutage"; "NoDisruption"].

Definition considered_groups : list string :=
  ["ARIMA_Decentral_BlockageConstant"; "PID_Central_BlockageConstant";
   "PID_Decentral_BlockageCosine"; "PID_Decentral_PumpOutage"].

Definition plot_metadata : gmap string string :=
  {[ "legend_title" := "Configuration";
     "x_label" := "Service loss";
     "x_unit" := "%";
     "y_label" := "Energy consumption";
     "y_unit" := "Wh" ]}.

(** [main] up to the data handed to the plot: the input archive and the
    store of the output archive are its inputs; it gives the table and the
    metadata read back, and the store it leaves.  Rendering and publishing
    the figure are outside the model. *)
Definition main (file_path : h5file) (data_archive : hdf_group)
  : M (DataFrame * gmap string string * hdf_group) :=
  let group_names :=
    generate_group_name (Lst controllers) (Lst topologies) (Lst disruptions) in
  processed_data ← process_groups file_path group_names considered_groups;
  data_archive ←
    save_dataframe_in_hdf5_with_metadata processed_data data_archive
      ["plotdata"] plot_metadata;
  '(plot_data, plot_format_data) ← read_plot_data data_archive ["plotdata"];
  mret (plot_data, plot_format_data, data_archive).

(** [traced Q m]: every event of [m] satisfies [Q]. *)
Definition traced {A} (Q : event → Prop) (m : M A) : Prop :=
  Forall Q (trace m).

(** The events a run can leave: prints, warnings, reads of datasets, and
    the read of the start index, the one attribute a run has. *)
Definition run_event (ev : event) : Prop :=
  match ev with
  | AttrAccess _ key => key = "analyse_start_time_index"
  | _ => True
  end.

(** A value of the lists of a group that is a float, not [None]. *)
Definition is_float (o : pyobj) : Prop := ∃ x, o = PyFloat x.

(** The row stored for a group from the two lists of its runs. *)
Definition aggregated_row (groups_service_loss groups_power : list pyobj)
  : list number :=
  [np_mean (asarray_float groups_power); np_std (asarray_float groups_power);
   np_mean (asarray_float groups_service_loss);
   np_std (asarray_float groups_service_loss)].

(** The rows of a table under one label. *)
Definition rows_of (label : string) (df : DataFrame)
  : list (string * list number) :=
  filter (fun r => r.1 = label) (df_rows df).

(** An event is a query of the setpoint of [group]. *)
Definition setpoint_query (group : string) : event :=
  AttrAccess group "setpoint".

(** An archive with the one group [G] and its first run. *)
Definition one_run_file (setpoint : number) (start : Z)
    (tank_pressure pump_1 pump_2 time : list number) : h5file :=
  H5File (list_to_map
    [("G", H5Group {[ "setpoint" := AttrFloat setpoint ]});
     ("G/run_01", H5Group {[ "analyse_start_time_index" := AttrInt start ]});
     ("G/run_01/tank_1_pressure", H5Dataset ∅ tank_pressure);
     ("G/run_01/pump_1_power", H5Dataset ∅ pump_1);
     ("G/run_01/pump_2_power", H5Dataset ∅ pump_2);
     ("G/run_01/time", H5Dataset ∅ time)]).

(* ===================================================================== *)
(** ** The formulas of the specification *)
(* ===================================================================== *)

(** These definitions follow the words of the specification, over the real
    numbers; the code above is compared with them. *)

(** [f 0 + f 1 + ... + f (n-1)]. *)
Fixpoint big_sum (n : nat) (f : nat → R) : R :=
  match n with
  | O => 0%R
  | S n' => (big_sum n' f + f n')%R
  end.

(** The area under one segment, and the trapezoidal rule as the
    specification words it: the sum over [i] of
    [0.5 * (signal[i] + signal[i+1]) * (timeBase[i+1] - timeBase[i])]. *)
Definition trapezoid (signal timeBase : list R) (i : nat) : R :=
  (0.5 * (nth i signal 0 + nth (i + 1) signal 0)
       * (nth (i + 1) timeBase 0 - nth i timeBase 0))%R.

Definition trapezoid_sum (signal timeBase : list R) : R :=
  big_sum (length signal - 1) (trapezoid signal timeBase).

(** [100 * (1 - actual/target)]. *)
Definition service_loss_formula (actual target : R) : R :=
  (100 * (1 - actual / target))%R.

(* ===================================================================== *)
(** ** The plot, the publishing and further notions *)
(* ===================================================================== *)

(** The setpoint the archive holds for a group, if any. *)
Definition setpoint_of (file_path : h5file) (group : string) : option attr :=
  match outcome (read_metadata file_path group "setpoint") with
  | Ok v => v
  | Raise _ => None
  end.

(** The groups of an enumeration that get a row: those of the allow-list
    that have a setpoint, in the order of the enumeration. *)
Definition aggregated_groups (file_path : h5file)
    (group_names considered : list string) : list string :=
  filter (fun g => g ∈ considered ∧ is_Some (setpoint_of file_path g))
         group_names.

(** The advisory printed for a run with a negative power reading. *)
Definition negative_power_warning (group run : string) : event :=
  Print ("Warning: Negative power values in " +:+ group +:+ ", " +:+ run).

(** An event is a warning of the [warnings] module. *)
Definition is_warning (ev : event) : Prop := ∃ msg, ev = Warn msg.

(** *** The plot *)

(** One call of [ax.errorbar]: the coordinates and the error bars as pandas
    hands them over (one value for a label that occurs once in the index,
    one value per occurrence otherwise), the format and the legend label. *)
Record errorbar : Type := mkErrorbar {
  eb_x : list number;
  eb_y : list number;
  eb_xerr : list number;
  eb_yerr : list number;
  eb_fmt : string;
  eb_label : string
}.

(** What the plotting function has asked of its axes. *)
Record Figure : Type := mkFigure {
  fig_errorbars : list errorbar;
  fig_xlabel : string;
  fig_ylabel : string;
  fig_legend_title : string;
  fig_grid : bool
}.

(** The position of a column name ([KeyError] when there is no such
    column). *)
Fixpoint column_position (col : string) (columns : list string) : M nat :=
  match columns with
  | [] => raise KeyError
  | c :: columns' =>
      if decide (c = col) then mret O
      else i ← column_position col columns'; mret (S i)
  end.

(** [df.loc[label, col]]: the value of the column in the rows under the
    label. *)
Definition df_loc (label col : string) (df : DataFrame) : M (list number) :=
  i ← column_position col (df_columns df);
  foldM (fun values r => v ← index r.2 i; mret (values ++ [v]))
        [] (rows_of label df).

(** [d[key]] on a dictionary of strings. *)
Definition dict_get (d : gmap string string) (key : string) : M string :=
  match d !! key with
  | Some v => mret v
  | None => raise KeyError
  end.

Definition plot_service_loss_vs_power (processed_data : DataFrame)
    (plot_format_data : gmap string string) : M Figure :=
  bars ← foldM (fun bars label =>
      x ← df_loc label "service_loss_mean" processed_data;
      y ← df_loc label "power_mean" processed_data;
      xerr ← df_loc label "service_loss_std" processed_data;
      yerr ← df_loc label "power_std" processed_data;
      mret (bars ++ [mkErrorbar x y xerr yerr "o" label]))
    [] (df_index processed_data);
  xlabel ← dict_get plot_format_data "x_label";
  ylabel ← dict_get plot_format_data "y_label";
  legend_title ← dict_get plot_format_data "legend_title";
  mret (mkFigure bars xlabel ylabel legend_title true).

(** *** Tagging and publishing *)

(** What the operating system does for [tagplot]: the functions of
    [os.path], the clock read as [datetime.now().strftime("%Y%m%d_%H%M%S")]
    gives it, and the operations on the file system, each of which may
    raise. *)
Class OS : Type := {
  FS : Type;
  path_join : string → string → string;
  path_basename : string → string;
  timestamp : string;
  makedirs : string → FS → result FS;
  savefig : Figure → string → FS → result FS;
  path_exists : string → FS → bool;
  copy : string → string → FS → result FS;
  write_text : string → string → FS → result FS
}.

(** The file system and the module variable [_last_output_dir]. *)
Record world `{OS} : Type := mkWorld {
  w_fs : FS;
  w_last_output_dir : option string
}.
Arguments mkWorld {_} _ _.
Arguments w_fs {_} _.
Arguments w_last_output_dir {_} _.

Definition lift {A} (r : result A) : M A := ([], r).

Definition newline : string := String (Ascii.ascii_of_nat 10) "".


(** ['=' * 60]. *)
Definition rule : string := String.concat "" (replicate 60 "=").

Definition tagplot `{OS} (fig : Figure) (source_paths : str_or_list)
    (destination_path id_method prefix : string) (w : world)
  : M (string * world) :=
  let plot_id :=
    if decide (id_method = "time") then prefix +:+ "_" +:+ timestamp
    else prefix in
  let output_dir := path_join destination_path plot_id in
  fs ← lift (makedirs output_dir (w_fs w));
  let plot_filename := path_join output_dir (plot_id +:+ ".png") in
  fs ← lift (savefig fig plot_filename fs);
  emit (Print ("Plot saved to: " +:+ plot_filename));;
  let source_paths := as_list source_paths in
  fs ← foldM (fun fs src =>
      if path_exists src fs then
        let dest_filename := path_basename src in
        let dest_path := path_join output_dir dest_filename in
        fs ← lift (copy src dest_path fs);
        emit (Print ("Copied: " +:+ src +:+ " -> " +:+ dest_path));;
        mret fs
      else mret fs)
    fs source_paths;
  let imports_file := path_join output_dir "required_imports.txt" in
  fs ← lift (write_text imports_file
               ("numpy" +:+ newline +:+ "pandas" +:+ newline
                +:+ "matplotlib" +:+ newline +:+ "h5py" +:+ newline) fs);
  mret (plot_id, mkWorld fs (Some output_dir)).

(** [publish]: the directory of the last [tagplot] when there is one (and it
    is not the empty string, which Python takes for false), the argument
    otherwise. *)
Definition publish `{OS} (destination_path : string) (w : world) : M unit :=
  match w_last_output_dir w with
  | Some last_output_dir =>
      if decide (last_output_dir = "") then
        emit (Print ("Published to: " +:+ destination_path))
      else
        emit (Print (newline +:+ rule));;
        emit (Print ("Published to: " +:+ last_output_dir));;
        emit (Print (rule +:+ newline))
  | None => emit (Print ("Published to: " +:+ destination_path))
  end.

Definition publish_plot `{OS} (fig : Figure) (source_paths : str_or_list)
    (destination_path : string) (w : world) : M world :=
  '(_, w) ← tagplot fig source_paths destination_path
              "time" "GdD_WS_2526_3774919" w;
  publish destination_path w;;
  mret w.

(** The error bar the plot draws for a row of the table: the service loss
    and its deviation along x, the power and its deviation along y. *)
Definition point_of_row (r : string * list number) : errorbar :=
  mkErrorbar [nth 2 r.2 NaN] [nth 0 r.2 NaN] [nth 3 r.2 NaN] [nth 1 r.2 NaN]
             "o" r.1.

(** An event announces a publication. *)
Definition is_publication (ev : event) : Prop :=
  ∃ where_to, ev = Print ("Published to: " +:+ where_to).

(** Two instances to run the publishing code on: a file system of regular
    files, kept as the list of the writes with the latest first, in which
    every operation succeeds, and one in which no directory can be
    created. *)
Fixpoint file_content (p : string) (fs : list (string * string))
  : option string :=
  match fs with
  | [] => None
  | (q, content) :: fs' =>
      if decide (q = p) then Some content else file_content p fs'
  end.

Definition files_os : OS := {|
  FS := list (string * string);
  path_join a b := a +:+ "/" +:+ b;
  path_basename p := p;
  timestamp := "20260209_084745";
  makedirs _ fs := Ok fs;
  savefig _ p fs := Ok ((p, "png") :: fs);
  path_exists p fs := bool_decide (is_Some (file_content p fs));
  copy src dst fs :=
    match file_content src fs with
    | Some content => Ok ((dst, content) :: fs)
    | None => Raise KeyError
    end;
  write_text p content fs := Ok ((p, content) :: fs)
|}.

Definition no_directory_os : OS := {|
  FS := list (string * string);
  path_join a b := a +:+ "/" +:+ b;
  path_basename p := p;
  timestamp := "20260209_084745";
  makedirs _ _ := Raise TypeError;
  savefig _ p fs := Ok ((p, "png") :: fs);
  path_exists p fs := bool_decide (is_Some (file_content p fs));
  copy src dst fs :=
    match file_content src fs with
    | Some content => Ok ((dst, content) :: fs)
    | None => Raise KeyError
    end;
  write_text p content fs := Ok ((p, content) :: fs)
|}.

(* ===================================================================== *)
(** ** Laws of the effect monad *)
(* ===================================================================== *)

Lemma bind_ret_l {A B} (a : A) (k : A → M B) : mret a ≫= k = k a.
Proof.
  unfold mbind, M_bind, mret, M_ret, bind, ret.
  by destruct (k a).
Qed.

Lemma bind_raise_l {A B} (e : exn) (k : A → M B) : raise e ≫= k = raise e.
Proof. reflexivity. Qed.

Lemma bind_ok {A B} (m : M A) (k : A → M B) tr a :
  m = (tr, Ok a) → m ≫= k = (tr ++ trace (k a), outcome (k a)).
Proof.
  intros ->. unfold mbind, M_bind, bind, trace, outcome.
  by destruct (k a).
Qed.

Lemma bind_pure {A B} (m : M A) (k : A → M B) a :
  m = ([], Ok a) → m ≫= k = k a.
Proof. intros ->. apply bind_ret_l. Qed.

Lemma bind_fail {A B} (m : M A) (k : A → M B) tr e :
  m = (tr, Raise e) → m ≫= k = (tr, Raise e).
Proof. by intros ->. Qed.

Lemma bind_assoc {A B C} (m : M A) (k : A → M B) (h : B → M C) :
  (m ≫= k) ≫= h = m ≫= (fun a => k a ≫= h).
Proof.
  unfold mbind, M_bind, bind.
  destruct m as [tr [a|e]]; [|done].
  destruct (k a) as [tr1 [b|e]]; [|done].
  destruct (h b) as [tr2 r]. by rewrite app_assoc.
Qed.

Lemma foldM_app {A B} (f : A → B → M A) (a : A) (l1 l2 : list B) :
  foldM f a (l1 ++ l2) = foldM f a l1 ≫= (fun a' => foldM f a' l2).
Proof.
  revert a. induction l1 as [|b l1 IH]; intros a; cbn [foldM app].
  - by rewrite bind_ret_l.
  - rewrite bind_assoc.
    (* the two continuations agree at every state *)
    unfold mbind, M_bind, bind.
    destruct (f a b) as [tr [a'|e]]; [|done].
    by rewrite IH.
Qed.

Lemma index_lookup {A} (xs : list A) i x : xs !! i = Some x → index xs i = mret x.
Proof. unfold index. by intros ->. Qed.

(* ===================================================================== *)
(** ** Integration *)
(* ===================================================================== *)

Section Integration.
Local Open Scope R_scope.

Lemma lookup_Fin (xs : list R) (i : nat) :
  (i < length xs)%nat → (Fin <$> xs) !! i = Some (Fin (nth i xs 0)).
Proof.
  intros Hi. rewrite list_lookup_fmap.
  destruct (nth_lookup_or_length xs i 0) as [->|?]; [done|lia].
Qed.

Lemma index_Fin (xs : list R) (i : nat) :
  (i < length xs)%nat → index (Fin <$> xs) i = mret (Fin (nth i xs 0)).
Proof. intros Hi. apply index_lookup. by apply lookup_Fin. Qed.

(** The loop of [integral_with_time_step] after [k] turns. *)
Lemma integral_loop (signal timeBase : list R) (k : nat) :
  length signal = length timeBase →
  (k + 1 <= length signal)%nat →
  foldM (fun integral i =>
      t1 ← index (Fin <$> timeBase) (i + 1);
      t0 ← index (Fin <$> timeBase) i;
      let dt := Num.sub t1 t0 in
      d0 ← index (Fin <$> signal) i;
      d1 ← index (Fin <$> signal) (i + 1);
      mret (Num.add integral
              (Num.mul (Num.mul (Fin 0.5) (Num.add d0 d1)) dt)))
    (Fin 0) (seq 0 k)
  = mret (Fin (0 + big_sum k (trapezoid signal timeBase))).
Proof.
  intros Hlen. induction k as [|k IH]; intros Hk.
  - simpl. do 2 f_equal. lra.
  - rewrite seq_S, foldM_app, IH by lia. rewrite bind_ret_l.
    cbn [foldM Nat.add].
    rewrite !index_Fin by lia. rewrite !bind_ret_l.
    cbn [Num.add Num.sub Num.mul big_sum]. unfold trapezoid.
    do 2 f_equal. lra.
Qed.

Lemma integral_of_reals (signal timeBase : list R) :
  length signal = length timeBase →
  integral_with_time_step (Fin <$> signal) (Fin <$> timeBase)
  = mret (PyFloat (Fin (trapezoid_sum signal timeBase))).
Proof.
  intros Hlen. unfold integral_with_time_step.
  rewrite !length_fmap, Hlen, Nat.eqb_refl. simpl negb. cbv iota.
  unfold range. rewrite <- Hlen.
  replace (Z.to_nat (Z.of_nat (length signal) - 1)) with (length signal - 1)%nat by lia.
  destruct signal as [|s0 signal].
  - reflexivity.
  - rewrite integral_loop; [|done|simpl; lia].
    rewrite bind_ret_l. unfold trapezoid_sum. do 3 f_equal. lra.
Qed.

(** A length mismatch: one warning and [None]. *)
Lemma integral_length_mismatch (data time_steps : list number) :
  length data ≠ length time_steps →
  integral_with_time_step data time_steps
  = ([Warn "Data and time arrays have different lengths."], Ok PyNone).
Proof.
  intros Hlen. unfold integral_with_time_step.
  apply Nat.eqb_neq in Hlen. by rewrite Hlen.
Qed.

(** On sequences of equal length the loop never leaves the sequences: the
    function gives a float, without a warning, whatever the values. *)
Lemma integral_loop_total (data time_steps : list number) (k : nat) (acc : number) :
  length data = length time_steps →
  (k + 1 <= length data)%nat →
  ∃ v, foldM (fun integral i =>
      t1 ← index time_steps (i + 1);
      t0 ← index time_steps i;
      let dt := Num.sub t1 t0 in
      d0 ← index data i;
      d1 ← index data (i + 1);
      mret (Num.add integral
              (Num.mul (Num.mul (Fin 0.5) (Num.add d0 d1)) dt)))
    acc (seq 0 k) = mret v.
Proof.
  intros Hlen. induction k as [|k IH]; intros Hk.
  - by exists acc.
  - destruct IH as [v IH]; [lia|].
    rewrite seq_S, foldM_app, IH, bind_ret_l. cbn [foldM Nat.add].
    destruct (lookup_lt_is_Some_2 time_steps (k + 1)) as [t1 Ht1]; [lia|].
    destruct (lookup_lt_is_Some_2 time_steps k) as [t0 Ht0]; [lia|].
    destruct (lookup_lt_is_Some_2 data k) as [d0 Hd0]; [lia|].
    destruct (lookup_lt_is_Some_2 data (k + 1)) as [d1 Hd1]; [lia|].
    rewrite (index_lookup _ _ _ Ht1), (index_lookup _ _ _ Ht0),
      (index_lookup _ _ _ Hd0), (index_lookup _ _ _ Hd1).
    rewrite !bind_ret_l. eauto.
Qed.

Lemma integral_total (data time_steps : list number) :
  length data = length time_steps →
  ∃ v, integral_with_time_step data time_steps = mret (PyFloat v).
Proof.
  intros Hlen. unfold integral_with_time_step.
  rewrite Hlen, Nat.eqb_refl. simpl negb. cbv iota. unfold range. rewrite <- Hlen.
  replace (Z.to_nat (Z.of_nat (length data) - 1)) with (length data - 1)%nat by lia.
  destruct (Nat.le_gt_cases (length data) 0) as [Hempty|Hsome].
  - replace (length data - 1)%nat with 0%nat by lia.
    exists (Fin 0). reflexivity.
  - destruct (integral_loop_total data time_steps (length data - 1) (Fin 0))
      as [v Hv]; [done|lia|].
    cbv zeta in Hv. rewrite Hv, bind_ret_l. eauto.
Qed.

(** With at most one sample the loop makes no turn: the integral is [0.0]. *)
Lemma integral_short (data time_steps : list number) :
  length data = length time_steps →
  (length data <= 1)%nat →
  integral_with_time_step data time_steps = mret (PyFloat (Fin 0)).
Proof.
  intros Hlen Hshort. unfold integral_with_time_step.
  rewrite Hlen, Nat.eqb_refl. simpl negb. cbv iota. unfold range. rewrite <- Hlen.
  replace (Z.to_nat (Z.of_nat (length data) - 1)) with 0%nat by lia.
  reflexivity.
Qed.

End Integration.

(** *** Integration on doubles *)

(** The rounding of the IEEE specification of the doubles ([SpecFloat]) on a
    value that a double holds exactly. *)
Section RoundExact.
Local Open Scope Z_scope.

Lemma iter_pos_nat {A} (f : A → A) p x :
  SpecFloat.iter_pos f p x = Nat.iter (Pos.to_nat p) f x.
Proof.
  revert x. induction p as [p IH|p IH|]; intros x; cbn [SpecFloat.iter_pos].
  - rewrite !IH, Pos2Nat.inj_xI.
    replace (S (2 * Pos.to_nat p))%nat
      with (Pos.to_nat p + (Pos.to_nat p + 1))%nat by lia.
    rewrite !Nat.iter_add. reflexivity.
  - rewrite !IH, Pos2Nat.inj_xO.
    replace (2 * Pos.to_nat p)%nat
      with (Pos.to_nat p + Pos.to_nat p)%nat by lia.
    rewrite Nat.iter_add. reflexivity.
  - reflexivity.
Qed.

Lemma digits2_shift k m :
  Zpos (digits2_pos (Nat.iter k xO m)) = Zpos (digits2_pos m) + Z.of_nat k.
Proof.
  induction k as [|k IH].
  - simpl. lia.
  - rewrite Nat2Z.inj_succ. simpl. rewrite Pos2Z.inj_succ, IH. lia.
Qed.

Lemma shr_shift k m :
  Nat.iter k shr_1 (Build_shr_record (Zpos (Nat.iter k xO m)) false false)
  = Build_shr_record (Zpos m) false false.
Proof.
  induction k as [|k IH]; [reflexivity|].
  rewrite Nat.iter_succ_r. simpl. exact IH.
Qed.

(** The mantissa [m * 2^k] at the exponent [e - k], where [m] at [e] is the
    mantissa of a double: the rounding shifts [k] zero bits out and gives
    [m] at [e], or the infinity when [e] is too large. *)
Lemma round_exact s m e k :
  canonical_mantissa prec emax m e = true →
  binary_round_aux prec emax s (Zpos (Nat.iter k xO m)) (e - Z.of_nat k)
    loc_Exact
  = if e <=? emax - prec then S754_finite s m e else S754_infinity s.
Proof.
  intros Hc. apply Z.eqb_eq in Hc.
  unfold binary_round_aux, shr_fexp.
  cbn [Zdigits2 shr_record_of_loc].
  rewrite digits2_shift.
  replace (Z.pos (digits2_pos m) + Z.of_nat k + (e - Z.of_nat k))
    with (Z.pos (digits2_pos m) + e) by lia.
  rewrite Hc.
  replace (e - (e - Z.of_nat k)) with (Z.of_nat k) by lia.
  assert (Hshr : shr (Build_shr_record (Zpos (Nat.iter k xO m)) false false)
                   (e - Z.of_nat k) (Z.of_nat k)
                 = (Build_shr_record (Zpos m) false false, e)).
  { destruct k as [|k].
    - simpl. f_equal. lia.
    - unfold shr. rewrite Nat2Z.inj_succ, <- Zpos_P_of_succ_nat.
      rewrite iter_pos_nat, SuccNat2Pos.id_succ, shr_shift.
      f_equal. rewrite Zpos_P_of_succ_nat. lia. }
  rewrite Hshr. cbn [shr_m loc_of_shr_record round_nearest_even Zdigits2
                     shr_record_of_loc].
  rewrite Hc, Z.sub_diag. cbn [shr shr_m]. reflexivity.
Qed.

End RoundExact.

Section DoublePrecision.
Local Open Scope float_scope.

Lemma SFeqb_refl (x : spec_float) : x ≠ S754_nan → SFeqb x x = true.
Proof.
  unfold SFeqb, SFcompare.
  destruct x as [s|s| |s m e]; intros Hx; try done.
  - by destruct s.
  - rewrite Z.compare_refl, Pos.compare_cont_refl. by destruct s.
Qed.

(** Not-a-number propagates through every operation. *)
Lemma is_nan_spec (x : float) : is_nan x = true ↔ Prim2SF x = S754_nan.
Proof.
  unfold is_nan. rewrite FloatAxioms.eqb_spec. split.
  - intros Hx. destruct (Prim2SF x) eqn:E; try done;
      rewrite SFeqb_refl in Hx; done.
  - by intros ->.
Qed.

Lemma is_nan_eq (x : float) : is_nan x = true → x = nan.
Proof. intros Hx. apply Prim2SF_inj. by apply is_nan_spec. Qed.






(** Multiplying by [1.0] is exact. *)
Lemma mul_one_r (x : float) : x * 1 = x.
Proof.
  apply Prim2SF_inj. rewrite FloatAxioms.mul_spec.
  pose proof (Prim2SF_valid x) as Hv.
  change (Prim2SF 1) with (S754_finite false 4503599627370496 (-52)).
  destruct (Prim2SF x) as [s|s| |s m e]; simpl; try (by rewrite ?xorb_false_r).
  unfold valid_binary, SpecFloat.bounded in Hv. apply andb_prop in Hv as [Hc He].
  rewrite xorb_false_r, Pos.mul_comm.
  change (Z.pos (4503599627370496 * m)) with (Z.pos (Nat.iter 52 xO m)).
  change (e + -52)%Z with (e - Z.of_nat 52)%Z.
  rewrite round_exact by done. by rewrite He.
Qed.


Lemma shl_align_same (m : positive) (e : Z) : shl_align m e e = (m, e).
Proof. unfold shl_align. by rewrite Z.sub_diag. Qed.

Lemma round_exact_0 (s : bool) (m : positive) (e : Z) :
  canonical_mantissa prec emax m e = true →
  binary_round_aux prec emax s (Zpos m) e loc_Exact
  = if (e <=? emax - prec)%Z then S754_finite s m e else S754_infinity s.
Proof.
  intros Hc. pose proof (round_exact s m e 0 Hc) as H.
  by rewrite Z.sub_0_r in H.
Qed.

(** Doubling a finite double is exact or overflows; halving the exact double
    gives the number back. *)
Lemma SF_double (s : bool) (m : positive) (e : Z) :
  SpecFloat.bounded prec emax m e = true →
  SF64add (S754_finite s m e) (S754_finite s m e) = S754_infinity s
  ∨ ∃ m' e',
      SF64add (S754_finite s m e) (S754_finite s m e) = S754_finite s m' e'
      ∧ SF64mul (Prim2SF 0.5) (S754_finite s m' e') = S754_finite s m e.
Proof.
  intros Hb. unfold SpecFloat.bounded in Hb. apply andb_prop in Hb as [Hc He].
  pose proof Hc as Hc'. apply Z.eqb_eq in Hc'. apply Z.leb_le in He.
  assert (Hsum : SF64add (S754_finite s m e) (S754_finite s m e)
                 = binary_round prec emax s (m~0) e).
  { unfold SF64add, SFadd. rewrite Z.min_id, shl_align_same. cbn [fst].
    destruct s; unfold cond_Zopp.
    - change (- Z.pos m + - Z.pos m)%Z with (Z.neg (m + m)).
      by rewrite Pos.add_diag.
    - change (Z.pos m + Z.pos m)%Z with (Z.pos (m + m)).
      by rewrite Pos.add_diag. }
  rewrite Hsum. unfold binary_round. cbn [digits2_pos].
  rewrite Pos2Z.inj_succ.
  change (Prim2SF 0.5) with (S754_finite false 4503599627370496 (-53)).
  unfold fexp, emin, prec, emax in Hc' |- *.
  destruct (Z_lt_le_dec (Z.pos (digits2_pos m)) 53) as [Hsub|Hnorm].
  - (* a subnormal number: the mantissa doubles *)
    assert (e = -1074)%Z as -> by lia.
    replace (Z.max (Z.succ (Z.pos (digits2_pos m)) + -1074 - 53) (3 - 1024 - 53))
      with (-1074)%Z by lia.
    rewrite shl_align_same, round_exact_0.
    + right. exists (m~0)%positive, (-1074)%Z. split; [done|].
      unfold SF64mul, SFmul. cbn [xorb].
      change (Z.pos (4503599627370496 * m~0)) with (Z.pos (Nat.iter 53 xO m)).
      change (-53 + -1074)%Z with (-1074 - Z.of_nat 53)%Z.
      by rewrite round_exact.
    + unfold canonical_mantissa, fexp, emin, prec, emax. cbn [digits2_pos].
      rewrite Pos2Z.inj_succ. apply Z.eqb_eq. lia.
  - (* a normal number: the exponent goes up by one *)
    replace (Z.max (Z.succ (Z.pos (digits2_pos m)) + e - 53) (3 - 1024 - 53))
      with (e + 1)%Z by lia.
    unfold shl_align. replace (e + 1 - e)%Z with 1%Z by lia. cbv iota beta.
    assert (Hr : binary_round_aux 53 1024 s (Z.pos m~0) e loc_Exact
                 = if (e + 1 <=? emax - prec)%Z then S754_finite s m (e + 1)
                   else S754_infinity s).
    { change (Z.pos m~0) with (Z.pos (Nat.iter 1 xO m)).
      replace e with (e + 1 - Z.of_nat 1)%Z at 1 by lia.
      apply round_exact.
      unfold canonical_mantissa, fexp, emin, prec, emax. apply Z.eqb_eq. lia. }
    rewrite Hr. unfold prec, emax.
    destruct (Z.leb_spec (e + 1) (1024 - 53)) as [Hle|Hgt]; [right|by left].
    exists m, (e + 1)%Z. split; [done|].
    unfold SF64mul, SFmul. cbn [xorb].
    change (Z.pos (4503599627370496 * m)) with (Z.pos (Nat.iter 52 xO m)).
    replace (-53 + (e + 1))%Z with (e - Z.of_nat 52)%Z by lia.
    rewrite round_exact by done.
    unfold prec, emax. destruct (Z.leb_spec e (1024 - 53)); [done|lia].
Qed.


Lemma is_nan_false_spec (x : float) :
  is_nan x = false ↔ Prim2SF x ≠ S754_nan.
Proof.
  rewrite <- is_nan_spec. destruct (is_nan x); split; (done || congruence).
Qed.

(** The rectangle check on doubles. *)
Lemma rectangle_check (a : float) :
  (0 + 0.5 * (a + a) * (1 - 0) =? a) = true
  ↔ is_nan a = false ∧ is_infinity (a + a) = is_infinity a.
Proof.
  change (1 - 0) with 1. rewrite mul_one_r, is_nan_false_spec.
  unfold is_infinity.
  rewrite !FloatAxioms.eqb_spec, !FloatAxioms.abs_spec, !FloatAxioms.add_spec,
    FloatAxioms.mul_spec, FloatAxioms.add_spec.
  pose proof (Prim2SF_valid a) as Hv.
  change (Prim2SF 0) with (S754_zero false).
  change (Prim2SF infinity) with (S754_infinity false).
  destruct (Prim2SF a) as [s|s| |s m e].
  - destruct s; vm_compute; split; [done|done|done|done].
  - destruct s; vm_compute; split; [done|done|done|done].
  - vm_compute. split; [done|]. by intros [? _].
  - destruct (SF_double s m e Hv) as [Hinf|(m' & e' & Hsum & Hhalf)].
    + rewrite Hinf. change (Prim2SF 0.5) with (S754_finite false 4503599627370496 (-53)).
      cbn. split; [by destruct s|]. intros [_ H]. by destruct s.
    + rewrite Hsum, Hhalf. cbn [SF64add SFadd SFabs].
      rewrite SFeqb_refl by done. split; [|done]. intros _.
      split; [done|]. reflexivity.
Qed.


Lemma sqrt_nan : PrimFloat.sqrt nan = nan.
Proof. reflexivity. Qed.













Lemma index_nth {A} (xs : list A) (i : nat) (d : A) :
  (i < length xs)%nat → index xs i = mret (nth i xs d).
Proof.
  intros Hi. apply index_lookup.
  destruct (nth_lookup_or_length xs i d) as [->|?]; [done|lia].
Qed.

(** The loop of [integral_with_time_step] on doubles after [k] turns. *)
Lemma integral_loop_doubles (signal timeBase : list float) (k : nat) :
  length signal = length timeBase →
  (k + 1 <= length signal)%nat →
  foldM (fun integral i =>
      t1 ← index timeBase (i + 1);
      t0 ← index timeBase i;
      let dt := t1 - t0 in
      d0 ← index signal i;
      d1 ← index signal (i + 1);
      mret (integral + 0.5 * (d0 + d1) * dt))
    0 (seq 0 k)
  = mret (foldl (fun acc i =>
             acc + 0.5 * (nth i signal nan + nth (i + 1) signal nan)
                   * (nth (i + 1) timeBase nan - nth i timeBase nan))
           0 (seq 0 k)).
Proof.
  intros Hlen. induction k as [|k IH]; intros Hk.
  - reflexivity.
  - rewrite seq_S, foldM_app, foldl_app, IH by lia. rewrite bind_ret_l.
    cbn [foldM foldl Nat.add].
    rewrite (index_nth timeBase (k + 1) nan), (index_nth timeBase k nan),
      (index_nth signal k nan), (index_nth signal (k + 1) nan) by lia.
    by rewrite !bind_ret_l.
Qed.

Lemma integral_of_doubles (signal timeBase : list float) :
  length signal = length timeBase →
  Binary64.integral_with_time_step signal timeBase
  = mret (Binary64.PyFloat (Binary64.trapezoid_sum signal timeBase)).
Proof.
  intros Hlen. unfold Binary64.integral_with_time_step.
  rewrite Hlen, Nat.eqb_refl. simpl negb. cbv iota.
  unfold range. rewrite <- Hlen.
  replace (Z.to_nat (Z.of_nat (length signal) - 1))
    with (length signal - 1)%nat by lia.
  destruct signal as [|s0 signal].
  - reflexivity.
  - rewrite integral_loop_doubles; [|done|simpl; lia].
    by rewrite bind_ret_l.
Qed.

End DoublePrecision.

(** *** C4 *)

(** The claim fails at the doubles [[1e308, 1e308]] over [[0, 1]]: the sum
    [1e308 + 1e308] overflows before it is halved, and the integral is
    infinite, not [1e308]. *)
Lemma C4_rectangle_check_overflows :
  Binary64.integral_with_time_step
    [0x1.1ccf385ebc8ap+1023; 0x1.1ccf385ebc8ap+1023]%float [0; 1]%float
  = mret (Binary64.PyFloat infinity)
  ∧ (infinity =? 0x1.1ccf385ebc8ap+1023)%float = false.
Proof. split; reflexivity. Qed.

(** C4, amended.  For signal and time sequences of doubles of one length,
    at least 1, [integral_with_time_step] gives, without the warning about
    the lengths, the sum of the terms [0.5 * (signal[i] + signal[i+1]) *
    (timeBase[i+1] - timeBase[i])], added in index order from [0.0] with
    every operation rounded to a double; on [[a, a]] over [[0, 1]] the result
    compares equal to [a] exactly when [a] is a number, not not-a-number,
    whose double [a + a] is infinite only if [a] is (the sum does not
    overflow); on one sample it gives [0.0]. *)
Theorem C4_integral_in_doubles :
  (∀ signal timeBase : list float,
      length signal = length timeBase →
      (1 <= length signal)%nat →
      Binary64.integral_with_time_step signal timeBase
      = mret (Binary64.PyFloat (Binary64.trapezoid_sum signal timeBase)))
  ∧ (∀ a : float,
        ∃ r : float,
          Binary64.integral_with_time_step [a; a] [0; 1]%float
          = mret (Binary64.PyFloat r)
          ∧ ((r =? a)%float = true
             ↔ is_nan a = false ∧ is_infinity (a + a) = is_infinity a))
  ∧ (∀ s t : float,
        Binary64.integral_with_time_step [s] [t]
        = mret (Binary64.PyFloat 0)).
Proof.
  split; [|split].
  - intros signal timeBase Hlen _. by apply integral_of_doubles.
  - intros a. eexists. split; [reflexivity|]. apply rectangle_check.
  - intros s t. reflexivity.
Qed.

Lemma C4_integral_in_doubles_witness :
  Binary64.integral_with_time_step [4; 3; 0]%float [2; 3; 4]%float
  = mret (Binary64.PyFloat (Binary64.trapezoid_sum [4; 3; 0] [2; 3; 4])%float).
Proof.
  apply (proj1 C4_integral_in_doubles [4; 3; 0]%float [2; 3; 4]%float).
  - reflexivity.
  - simpl. lia.
Defined.

(* ===================================================================== *)
(** ** Service loss *)
(* ===================================================================== *)

Lemma is_zero_spec (x : number) : Num.is_zero x = true ↔ x = Fin 0.
Proof.
  destruct x as [|r]; simpl; [done|].
  destruct (Req_dec_T r 0) as [->|Hr]; split; try done.
  intros [= ->]. by destruct Hr.
Qed.

Lemma is_zero_nonzero (r : R) : r ≠ 0%R → Num.is_zero (Fin r) = false.
Proof. intros Hr. simpl. by destruct (Req_dec_T r 0). Qed.

Lemma div_nonzero (a b : R) : b ≠ 0%R → Num.div (Fin a) (Fin b) = Fin (a / b).
Proof. intros Hb. simpl. by destruct (Req_dec_T b 0). Qed.

Lemma outcome_bind {A B} (m : M A) (k : A → M B) tr a :
  m = (tr, Ok a) → outcome (m ≫= k) = outcome (k a).
Proof. intros Hm. by rewrite (bind_ok _ _ _ _ Hm). Qed.

Lemma trace_bind {A B} (m : M A) (k : A → M B) tr a :
  m = (tr, Ok a) → trace (m ≫= k) = tr ++ trace (k a).
Proof. intros Hm. by rewrite (bind_ok _ _ _ _ Hm). Qed.

Lemma outcome_bind_raise {A B} (m : M A) (k : A → M B) e :
  outcome m = Raise e → outcome (m ≫= k) = Raise e.
Proof. destruct m as [tr [a|e']]; simpl; [done|]. by intros [= ->]. Qed.

Lemma service_loss_of_reals (actual target : R) :
  target ≠ 0%R →
  calculate_service_loss (PyFloat (Fin actual)) (PyFloat (Fin target))
  = mret (PyFloat (Fin (service_loss_formula actual target))).
Proof.
  intros Ht. unfold calculate_service_loss, py_truediv.
  rewrite is_zero_nonzero, div_nonzero by done.
  by rewrite !bind_ret_l.
Qed.

Lemma service_loss_zero_target (fill : number) :
  calculate_service_loss (PyFloat fill) (PyFloat (Fin 0))
  = raise ZeroDivisionError.
Proof.
  unfold calculate_service_loss, py_truediv.
  by rewrite (proj2 (is_zero_spec (Fin 0)) eq_refl).
Qed.

Lemma service_loss_nonzero_target (fill target : number) :
  target ≠ Fin 0 →
  ∃ v, calculate_service_loss (PyFloat fill) (PyFloat target)
       = mret (PyFloat v).
Proof.
  intros Ht. unfold calculate_service_loss, py_truediv.
  destruct (Num.is_zero target) eqn:Hz.
  - by apply is_zero_spec in Hz.
  - rewrite !bind_ret_l. eauto.
Qed.

(** *** C7 *)



(** *** Slices *)

Lemma slice_from_length {A B} (start : option Z) (xs : list A) (ys : list B) :
  length xs = length ys →
  length (slice_from start xs) = length (slice_from start ys).
Proof.
  intros Hlen. unfold slice_from. destruct start as [z|]; [|done].
  rewrite Hlen. case_match; by rewrite !length_drop, Hlen.
Qed.

Lemma cap_service_data_length (service_data : list number) (setpoint : number) :
  length (cap_service_data service_data setpoint) = length service_data.
Proof. unfold cap_service_data. by rewrite length_fmap. Qed.

Lemma as_slice_index_int (start : option Z) :
  as_slice_index (AttrInt <$> start) = mret start.
Proof. by destruct start. Qed.

(** The advisory about negative power changes the trace only. *)
Lemma negative_power_note (b : bool) (msg : string) :
  ∃ tr, (if b then emit (Print msg) else mret tt) = (tr, Ok tt).
Proof. destruct b; eauto. Qed.

(** An analysis window of at most one sample: both integrals are [0.0] and
    the division raises. *)
Lemma run_metrics_zero_window (group run : string) (setpoint : number)
    (start : option Z) (tank_pressure pump_1 pump_2 time : list number) :
  length tank_pressure = length time →
  (length (slice_from start time) <= 1)%nat →
  outcome (run_metrics group run setpoint (AttrInt <$> start)
             tank_pressure pump_1 pump_2 time)
  = Raise ZeroDivisionError.
Proof.
  intros Hlen Hshort. unfold run_metrics.
  destruct (negative_power_note
              (negb (check_negative_values pump_1 && check_negative_values pump_2))
              ("Warning: Negative power values in " +:+ group +:+ ", " +:+ run))
    as [tr Hnote].
  rewrite (outcome_bind _ _ _ _ Hnote).
  rewrite as_slice_index_int, bind_ret_l.
  assert (Hfill : length (slice_from start (cap_service_data tank_pressure setpoint))
                  = length (slice_from start time)).
  { apply slice_from_length. by rewrite cap_service_data_length. }
  rewrite (integral_short (slice_from start (cap_service_data tank_pressure setpoint)))
    by (done || lia).
  rewrite bind_ret_l.
  rewrite (integral_short
             ((fun _ => setpoint)
                <$> slice_from start (cap_service_data tank_pressure setpoint)))
    by (rewrite length_fmap; first [done | lia]).
  rewrite bind_ret_l, service_loss_zero_target.
  reflexivity.
Qed.

(* ===================================================================== *)
(** ** Capping *)
(* ===================================================================== *)

(** Decides the comparisons hidden in [Rmin] and [Rmax] on given reals. *)
Ltac real_cases :=
  unfold Rmin, Rmax; repeat (destruct (Rle_dec _ _); try lra).

Lemma clip_reals (lo hi x : R) :
  clip (Fin lo) (Fin hi) (Fin x) = Fin (Rmin (Rmax x lo) hi).
Proof. reflexivity. Qed.

Lemma clip_bounds (hi x : R) :
  (0 <= hi)%R → (0 <= Rmin (Rmax x 0) hi <= hi)%R.
Proof. intros Hhi. real_cases. Qed.

Lemma clip_inside (hi x : R) :
  (0 <= x)%R → (x <= hi)%R → Rmin (Rmax x 0) hi = x.
Proof. intros H0 Hhi. real_cases. Qed.

(** *** C6 *)

(** C6.  For a setpoint that is at least [0], no element of the capped
    signal is below [0] or above the setpoint; an element that is a number
    is capped to a number of the range from [0] to the setpoint; and an
    element already in that range stays what it is, where it is. *)
Theorem C6_cap_within_range (signal : list number) (setpoint : number) :
  Num.le (Fin 0) setpoint →
  (∀ (i : nat) (v : number),
      cap_service_data signal setpoint !! i = Some v →
      ¬ Num.lt v (Fin 0) ∧ ¬ Num.lt setpoint v)
  ∧ (∀ (i : nat) (x : R),
        signal !! i = Some (Fin x) →
        ∃ v, cap_service_data signal setpoint !! i = Some v
             ∧ Num.le (Fin 0) v ∧ Num.le v setpoint)
  ∧ (∀ (i : nat) (x : number),
        signal !! i = Some x →
        Num.le (Fin 0) x → Num.le x setpoint →
        cap_service_data signal setpoint !! i = Some x).
Proof.
  intros Hsp. destruct setpoint as [|sp]; [done|]. simpl in Hsp.
  unfold cap_service_data. split; [|split].
  - intros i v Hv. rewrite list_lookup_fmap in Hv.
    destruct (signal !! i) as [[|x]|]; simplify_eq/=; [tauto|].
    pose proof (clip_bounds sp x Hsp). lra.
  - intros i x Hx. rewrite list_lookup_fmap, Hx. simpl.
    eexists; split; [done|]. simpl. by apply clip_bounds.
  - intros i [|x] Hx H0 Hhi; [done|]. simpl in H0, Hhi.
    rewrite list_lookup_fmap, Hx. simpl.
    by rewrite clip_reals, clip_inside.
Qed.

Lemma C6_cap_within_range_witness :
  (∀ (i : nat) (v : number),
      cap_service_data (Fin <$> [6; 5; 4; 3; -1]%R) (Fin 5) !! i = Some v →
      ¬ Num.lt v (Fin 0) ∧ ¬ Num.lt (Fin 5) v)
  ∧ (∀ (i : nat) (x : R),
        (Fin <$> [6; 5; 4; 3; -1]%R) !! i = Some (Fin x) →
        ∃ v, cap_service_data (Fin <$> [6; 5; 4; 3; -1]%R) (Fin 5) !! i = Some v
             ∧ Num.le (Fin 0) v ∧ Num.le v (Fin 5))
  ∧ (∀ (i : nat) (x : number),
        (Fin <$> [6; 5; 4; 3; -1]%R) !! i = Some x →
        Num.le (Fin 0) x → Num.le x (Fin 5) →
        cap_service_data (Fin <$> [6; 5; 4; 3; -1]%R) (Fin 5) !! i = Some x).
Proof.
  apply (C6_cap_within_range (Fin <$> [6; 5; 4; 3; -1]%R) (Fin 5)).
  simpl. lra.
Defined.

(* ===================================================================== *)
(** ** The end-to-end scenario *)
(* ===================================================================== *)

(** The tail of [run_metrics] once the two service integrals are known and
    the target is not zero: the energy of the pumps is a float. *)
Lemma energy_total {B} (pump_1 pump_2 time : list number) (k : pyobj → M B) :
  length pump_1 = length time →
  length pump_2 = length time →
  ∃ energy,
    (e1 ← integral_with_time_step pump_1 time;
     e2 ← integral_with_time_step pump_2 time;
     total_energy_ws ← py_add e1 e2;
     total_energy_wh ← convert_Ws_to_Wh total_energy_ws;
     k total_energy_wh) = k (PyFloat energy).
Proof.
  intros H1 H2.
  destruct (integral_total pump_1 time H1) as [v1 ->].
  destruct (integral_total pump_2 time H2) as [v2 ->].
  rewrite !bind_ret_l. unfold py_add. rewrite bind_ret_l.
  unfold convert_Ws_to_Wh, py_truediv.
  rewrite is_zero_nonzero by lra. rewrite bind_ret_l. eauto.
Qed.

Lemma scenario_cap :
  cap_service_data (Fin <$> [6; 5; 4; 3; -1]%R) (Fin 5)
  = Fin <$> [5; 5; 4; 3; 0]%R.
Proof.
  unfold cap_service_data. simpl. rewrite !clip_reals.
  real_cases; reflexivity.
Qed.

(** C1.  Setpoint [5.0], start index [2], pressure [[6,5,4,3,-1]] over time
    [[0,1,2,3,4]]: the capped signal is [[5,5,4,3,0]]; its slice [[4,3,0]]
    over [[2,3,4]] integrates to [5.0]; the constant target over that window
    integrates to [10.0]; the service loss is [50.0], and that is the value
    the run contributes whatever the power signals of that length are. *)
Theorem C1_end_to_end_scenario :
  let tank_pressure := Fin <$> [6; 5; 4; 3; -1]%R in
  let time := Fin <$> [0; 1; 2; 3; 4]%R in
  let service_fill := cap_service_data tank_pressure (Fin 5) in
  service_fill = Fin <$> [5; 5; 4; 3; 0]%R
  ∧ slice_from (Some 2%Z) service_fill = Fin <$> [4; 3; 0]%R
  ∧ slice_from (Some 2%Z) time = Fin <$> [2; 3; 4]%R
  ∧ integral_with_time_step (slice_from (Some 2%Z) service_fill)
                            (slice_from (Some 2%Z) time)
    = mret (PyFloat (Fin 5))
  ∧ integral_with_time_step
      ((fun _ => Fin 5) <$> slice_from (Some 2%Z) service_fill)
      (slice_from (Some 2%Z) time)
    = mret (PyFloat (Fin 10))
  ∧ calculate_service_loss (PyFloat (Fin 5)) (PyFloat (Fin 10))
    = mret (PyFloat (Fin 50))
  ∧ (∀ (group run : string) (pump_1 pump_2 : list number),
        length pump_1 = 5%nat → length pump_2 = 5%nat →
        ∃ energy,
          outcome (run_metrics group run (Fin 5) (Some (AttrInt 2))
                     tank_pressure pump_1 pump_2 time)
          = Ok (PyFloat (Fin 50), PyFloat energy)).
Proof.
  intros tank_pressure time service_fill.
  assert (Hcap : service_fill = Fin <$> [5; 5; 4; 3; 0]%R) by apply scenario_cap.
  assert (Hfill : integral_with_time_step (Fin <$> [4; 3; 0]%R) (Fin <$> [2; 3; 4]%R)
                  = mret (PyFloat (Fin 5))).
  { rewrite integral_of_reals by done. do 3 f_equal.
    unfold trapezoid_sum, trapezoid. simpl. lra. }
  assert (Htarget : integral_with_time_step (Fin <$> [5; 5; 5]%R) (Fin <$> [2; 3; 4]%R)
                    = mret (PyFloat (Fin 10))).
  { rewrite integral_of_reals by done. do 3 f_equal.
    unfold trapezoid_sum, trapezoid. simpl. lra. }
  assert (Hloss : calculate_service_loss (PyFloat (Fin 5)) (PyFloat (Fin 10))
                  = mret (PyFloat (Fin 50))).
  { rewrite service_loss_of_reals by lra. do 3 f_equal.
    unfold service_loss_formula. lra. }
  rewrite Hcap.
  split; [done|]. split; [done|]. split; [done|].
  split; [exact Hfill|]. split; [exact Htarget|]. split; [exact Hloss|].
  intros group run pump_1 pump_2 Hp1 Hp2.
  destruct (energy_total pump_1 pump_2 time
              (fun wh => mret (PyFloat (Fin 50), wh)) Hp1 Hp2)
    as [energy Henergy].
  exists energy. unfold run_metrics.
  destruct (negative_power_note
              (negb (check_negative_values pump_1 && check_negative_values pump_2))
              ("Warning: Negative power values in " +:+ group +:+ ", " +:+ run))
    as [tr Hnote].
  rewrite (outcome_bind _ _ _ _ Hnote).
  change (as_slice_index (Some (AttrInt 2))) with (mret (M:=M) (Some 2%Z)).
  rewrite bind_ret_l. fold service_fill. rewrite Hcap.
  change (slice_from (Some 2%Z) (Fin <$> [5; 5; 4; 3; 0]%R))
    with (Fin <$> [4; 3; 0]%R).
  change (slice_from (Some 2%Z) time) with (Fin <$> [2; 3; 4]%R).
  rewrite Hfill, bind_ret_l.
  change ((fun _ => Fin 5) <$> (Fin <$> [4; 3; 0]%R)) with (Fin <$> [5; 5; 5]%R).
  rewrite Htarget, bind_ret_l, Hloss, bind_ret_l.
  change (Fin <$> [0; 1; 2; 3; 4]%R) with time.
  by rewrite Henergy.
Qed.

Lemma C1_end_to_end_scenario_witness :
  ∃ energy,
    outcome (run_metrics "PID_Central_BlockageConstant" "run_01" (Fin 5)
               (Some (AttrInt 2)) (Fin <$> [6; 5; 4; 3; -1]%R)
               (Fin <$> [10; 10; 10; 10; 10]%R) (Fin <$> [0; 0; 0; 0; 0]%R)
               (Fin <$> [0; 1; 2; 3; 4]%R))
    = Ok (PyFloat (Fin 50), PyFloat energy).
Proof.
  apply (proj2 (proj2 (proj2 (proj2 (proj2 (proj2 C1_end_to_end_scenario))))));
    reflexivity.
Defined.

(* ===================================================================== *)
(** ** Mean and standard deviation *)
(* ===================================================================== *)

Section Aggregation.
Local Open Scope R_scope.

Lemma add_NaN_l (x : number) : Num.add NaN x = NaN.
Proof. reflexivity. Qed.

Lemma add_NaN_r (x : number) : Num.add x NaN = NaN.
Proof. by destruct x. Qed.

Lemma foldl_add_NaN (arr : list number) : foldl Num.add NaN arr = NaN.
Proof. induction arr as [|x arr IH]; [done|]. simpl. exact IH. Qed.

(** One not-a-number makes the sum not-a-number. *)
Lemma np_sum_NaN (arr : list number) : NaN ∈ arr → np_sum arr = NaN.
Proof.
  unfold np_sum. generalize (Fin 0). induction arr as [|x arr IH]; intros acc Hin.
  - by apply elem_of_nil in Hin.
  - apply elem_of_cons in Hin as [<-|Hin]; simpl.
    + rewrite add_NaN_r. apply foldl_add_NaN.
    + by apply IH.
Qed.

(** Not-a-number in the array: the mean and the standard deviation are both
    not-a-number. *)
Lemma np_mean_NaN (arr : list number) : NaN ∈ arr → np_mean arr = NaN.
Proof. intros Hin. unfold np_mean. by rewrite np_sum_NaN. Qed.

Lemma np_std_NaN (arr : list number) : NaN ∈ arr → np_std arr = NaN.
Proof.
  intros Hin. unfold np_std. rewrite np_mean_NaN by done.
  rewrite np_sum_NaN; [done|].
  apply list_elem_of_fmap. exists NaN. split; [done|].
  apply list_elem_of_fmap. exists NaN. split; [done|]. done.
Qed.

Lemma mean_and_std_NaN (data : list pyobj) :
  NaN ∈ asarray_float data → calculate_mean_and_std data = mret (NaN, NaN).
Proof.
  intros Hin. unfold calculate_mean_and_std.
  by rewrite np_mean_NaN, np_std_NaN.
Qed.

Lemma asarray_float_NaN (data : list pyobj) :
  PyFloat NaN ∈ data → NaN ∈ asarray_float data.
Proof.
  intros Hin. unfold asarray_float.
  apply list_elem_of_fmap. by exists (PyFloat NaN).
Qed.

Lemma asarray_float_None (data : list pyobj) :
  PyNone ∈ data → NaN ∈ asarray_float data.
Proof.
  intros Hin. unfold asarray_float.
  apply list_elem_of_fmap. by exists PyNone.
Qed.

End Aggregation.

(** *** C5 *)



(* ===================================================================== *)
(** ** The result store *)
(* ===================================================================== *)

(* ===================================================================== *)
(** ** The result store *)
(* ===================================================================== *)

Lemma get_node_put (key : list string) (new store : hdf_group) :
  get_node key (put_node key new store) = Some new.
Proof.
  revert store. induction key as [|name key IH]; intros store; [done|].
  cbn [put_node get_node group_children]. by rewrite lookup_insert_eq.
Qed.

Lemma get_node_put_below (key below : list string) (new store : hdf_group) :
  get_node (key ++ below) (put_node key new store) = get_node below new.
Proof.
  revert store. induction key as [|name key IH]; intros store; [done|].
  cbn [app put_node get_node group_children]. by rewrite lookup_insert_eq.
Qed.

Lemma get_node_empty_group (key : list string) :
  key ≠ [] → get_node key empty_group = None.
Proof. by destruct key. Qed.

Lemma apart_cons (name : string) (key1 key2 : list string) :
  apart (name :: key1) (name :: key2) → apart key1 key2.
Proof.
  intros [H1 H2]. split; intros Hp; [apply H1|apply H2];
    by apply prefix_cons.
Qed.

Lemma apart_nonempty (key1 key2 : list string) :
  apart key1 key2 → key1 ≠ [] ∧ key2 ≠ [].
Proof.
  intros [H1 H2]. split; intros ->; [apply H1|apply H2]; apply prefix_nil.
Qed.

Lemma get_node_put_apart (key other : list string) (new store : hdf_group) :
  apart key other →
  get_node other (put_node key new store) = get_node other store.
Proof.
  revert other store. induction key as [|name key IH]; intros other store Hap.
  - by apply apart_nonempty in Hap as [? _].
  - destruct other as [|name' other]; [by apply apart_nonempty in Hap as [_ ?]|].
    cbn [put_node get_node group_children].
    destruct (decide (name' = name)) as [->|Hne].
    + rewrite lookup_insert_eq. apply apart_cons in Hap.
      rewrite IH by done.
      destruct (group_children store !! name) as [child|]; [done|].
      apply get_node_empty_group. by apply apart_nonempty in Hap as [_ ?].
    + by rewrite lookup_insert_ne.
Qed.

Lemma store_remove_cons (name : string) (key : list string)
    (store : hdf_group) :
  key ≠ [] →
  store_remove (name :: key) store
  = match group_children store !! name with
    | Some child =>
        Group (group_unit store)
          (<[name := store_remove key child]> (group_children store))
    | None => store
    end.
Proof. by destruct key. Qed.

Lemma get_node_remove (key : list string) (store : hdf_group) :
  key ≠ [] → get_node key (store_remove key store) = None.
Proof.
  revert store. induction key as [|name key IH]; intros store Hkey; [done|].
  destruct key as [|name' key].
  - cbn [store_remove get_node group_children]. by rewrite lookup_delete_eq.
  - cbn [store_remove].
    destruct (group_children store !! name) as [child|] eqn:Hchild.
    + cbn [get_node group_children]. rewrite lookup_insert_eq.
      by apply IH.
    + cbn [get_node]. by rewrite Hchild.
Qed.

Lemma get_node_remove_apart (key other : list string) (store : hdf_group) :
  apart key other →
  get_node other (store_remove key store) = get_node other store.
Proof.
  revert other store. induction key as [|name key IH]; intros other store Hap.
  - done.
  - destruct other as [|name' other]; [by apply apart_nonempty in Hap as [_ ?]|].
    destruct key as [|name'' key].
    + cbn [store_remove get_node group_children].
      destruct (decide (name' = name)) as [->|Hne].
      * destruct Hap as [Hap _]. destruct Hap. by apply prefix_cons, prefix_nil.
      * by rewrite lookup_delete_ne.
    + cbn [store_remove].
      destruct (group_children store !! name) as [child|] eqn:Hchild; [|done].
      cbn [get_node group_children].
      destruct (decide (name' = name)) as [->|Hne].
      * rewrite lookup_insert_eq, Hchild. apply IH. by apply apart_cons in Hap.
      * by rewrite lookup_insert_ne.
Qed.

Lemma put_node_put (key : list string) (new1 new2 store : hdf_group) :
  put_node key new2 (put_node key new1 store) = put_node key new2 store.
Proof.
  revert store. induction key as [|name key IH]; intros store; [done|].
  cbn [put_node group_unit group_children].
  rewrite lookup_insert_eq, insert_insert_eq. cbn [from_option Datatypes.id]. by rewrite IH.
Qed.

Lemma put_node_remove (key : list string) (new store : hdf_group) :
  key ≠ [] →
  put_node key new (store_remove key store) = put_node key new store.
Proof.
  revert store. induction key as [|name key IH]; intros store Hkey; [done|].
  destruct (decide (key = [])) as [->|Hne].
  - cbn [store_remove put_node group_unit group_children].
    by rewrite insert_delete_eq.
  - rewrite store_remove_cons by done.
    destruct (group_children store !! name) as [child|] eqn:Hchild; [|done].
    cbn [put_node group_unit group_children].
    rewrite lookup_insert_eq, insert_insert_eq, Hchild.
    cbn [from_option Datatypes.id]. by rewrite IH.
Qed.

Lemma get_node_below_leaf (below : list string) (unit : option storer) :
  below ≠ [] → get_node below (Group unit ∅) = None.
Proof. by destruct below. Qed.

(** What [save_dataframe_in_hdf5_with_metadata] leaves when the table has a
    row and a column: at the key a fresh group with the table and nothing but
    the metadata attribute, whatever was there or below before. *)
Lemma save_unit (df : DataFrame) (store : hdf_group)
    (group_name : list string) (metadata : gmap string string) :
  group_name ≠ [] →
  df_empty df = false →
  save_dataframe_in_hdf5_with_metadata df store group_name metadata
  = mret (put_node group_name
            (Group (Some (mkStorer df {[ "metadata" := metadata ]})) ∅)
            store).
Proof.
  intros Hkey Hdf.
  unfold save_dataframe_in_hdf5_with_metadata, store_put, set_storer_attr,
    get_storer.
  rewrite Hdf, get_node_put. rewrite bind_ret_l. cbn [st_table st_attrs fmap
    option_fmap option_map group_children from_option Datatypes.id].
  rewrite put_node_put, insert_empty.
  destruct (store_contains group_name store); [|done].
  by rewrite put_node_remove.
Qed.

(** A table without rows or columns is not written: the storer asked for
    next does not exist. *)
Lemma save_empty (df : DataFrame) (store : hdf_group)
    (group_name : list string) (metadata : gmap string string) :
  group_name ≠ [] →
  df_empty df = true →
  save_dataframe_in_hdf5_with_metadata df store group_name metadata
  = raise KeyError.
Proof.
  intros Hkey Hdf.
  unfold save_dataframe_in_hdf5_with_metadata, store_put, set_storer_attr,
    get_storer.
  rewrite Hdf. unfold store_contains. case_bool_decide as Hin.
  - by rewrite get_node_remove.
  - destruct (get_node group_name store); [|done].
    destruct Hin. by eexists.
Qed.

Lemma read_unit (store : hdf_group) (group_path : list string)
    (df : DataFrame) (attrs : gmap string (gmap string string))
    (children : gmap string hdf_group) :
  get_node group_path store = Some (Group (Some (mkStorer df attrs)) children) →
  read_plot_data store group_path
  = match attrs !! "metadata" with
    | Some metadata => mret (df, metadata)
    | None => raise AttributeError
    end.
Proof.
  intros Hnode. unfold read_plot_data, get_storer. rewrite Hnode.
  rewrite !bind_ret_l. cbn [st_table st_attrs]. by destruct (attrs !! "metadata").
Qed.

(** The claim fails at the table without rows that [main] builds when no
    group has a setpoint: it is not written, saving it raises [KeyError],
    and nothing can be read back. *)
Lemma C3_table_without_rows_is_not_stored :
  df_rows empty_processed_data = []
  ∧ save_dataframe_in_hdf5_with_metadata empty_processed_data empty_group
      ["plotdata"] plot_metadata
    = raise KeyError.
Proof. split; reflexivity. Qed.

(** C3, amended.  For a table [T] with at least one row and one column, a
    key [k] and metadata [M]: writing the unit [(T, M)] at [k] of any store
    and reading the unit at [k] gives the table [T], rows and columns, and
    the metadata [M], keys and values, and neither step raises.  A table
    without rows or without columns is not written: the write raises
    [KeyError]. *)
Theorem C3_round_trip_of_a_table_with_rows (T : DataFrame) (k : list string)
    (Md : gmap string string) (S : hdf_group) :
  is_key k →
  (df_empty T = false →
   (S' ← save_dataframe_in_hdf5_with_metadata T S k Md; read_plot_data S' k)
   = mret (T, Md))
  ∧ (df_empty T = true →
     save_dataframe_in_hdf5_with_metadata T S k Md = raise KeyError).
Proof.
  intros [Hk _]. split; intros HT.
  - rewrite save_unit, bind_ret_l by done.
    rewrite (read_unit _ _ _ _ _ (get_node_put _ _ _)).
    by rewrite lookup_singleton_eq.
  - by apply save_empty.
Qed.

Lemma C3_round_trip_of_a_table_with_rows_witness :
  let T := loc_set "A" [Fin 1; Fin 2; Fin 3; Fin 4] empty_processed_data in
  (S' ← save_dataframe_in_hdf5_with_metadata T empty_group ["plotdata"]
          plot_metadata;
   read_plot_data S' ["plotdata"])
  = mret (T, plot_metadata).
Proof.
  intros T.
  apply (C3_round_trip_of_a_table_with_rows T ["plotdata"] plot_metadata
           empty_group).
  - split; [done|]. by repeat constructor.
  - reflexivity.
Defined.

(* ===================================================================== *)
(** ** The orchestrator *)
(* ===================================================================== *)

(** *** Outcomes and traces of composed computations *)

Lemma outcome_bind_inv {A B} (m : M A) (k : A → M B) (b : B) :
  outcome (m ≫= k) = Ok b →
  ∃ a, outcome m = Ok a ∧ outcome (k a) = Ok b.
Proof.
  destruct m as [tr [a|e]]; [|done]. intros Hb.
  exists a. split; [done|]. by rewrite (outcome_bind _ _ tr a eq_refl) in Hb.
Qed.

Lemma outcome_mret {A} (a : A) : outcome (mret a : M A) = Ok a.
Proof. reflexivity. Qed.

Lemma traced_ret {A} (Q : event → Prop) (a : A) : traced Q (mret a : M A).
Proof. constructor. Qed.

Lemma traced_raise {A} (Q : event → Prop) (e : exn) : traced Q (raise e : M A).
Proof. constructor. Qed.

Lemma traced_emit (Q : event → Prop) (ev : event) : Q ev → traced Q (emit ev).
Proof. intros Hev. by repeat constructor. Qed.

Lemma traced_bind {A B} (Q : event → Prop) (m : M A) (k : A → M B) :
  traced Q m → (∀ a, outcome m = Ok a → traced Q (k a)) → traced Q (m ≫= k).
Proof.
  unfold traced. destruct m as [tr [a|e]]; intros Hm Hk; [|done].
  rewrite (trace_bind _ _ tr a eq_refl). apply Forall_app. split; [done|].
  by apply Hk.
Qed.

Lemma traced_impl {A} (Q Q' : event → Prop) (m : M A) :
  (∀ ev, Q ev → Q' ev) → traced Q m → traced Q' m.
Proof. intros HQ Hm. by eapply Forall_impl. Qed.

Lemma traced_foldM {A B} (Q : event → Prop) (f : A → B → M A) (a : A)
    (l : list B) :
  (∀ a b, b ∈ l → traced Q (f a b)) → traced Q (foldM f a l).
Proof.
  revert a. induction l as [|b l IH]; intros a Hf; cbn [foldM].
  - apply traced_ret.
  - apply traced_bind; [apply Hf; left|].
    intros a' _. apply IH. intros a'' b' Hb'. apply Hf. by right.
Qed.

(** The loops: what holds of the state before the loop and is kept by every
    turn that returns holds of the state the loop returns; the invariant may
    speak of the elements already visited. *)
Lemma foldM_invariant {A B} (P : list B → A → Prop) (f : A → B → M A)
    (a : A) (l : list B) (r : A) :
  P [] a →
  (∀ pre a b a', P pre a → outcome (f a b) = Ok a' → P (pre ++ [b]) a') →
  outcome (foldM f a l) = Ok r →
  P l r.
Proof.
  intros Ha Hstep. revert a Ha.
  assert (Hgen : ∀ pre a, P pre a → outcome (foldM f a l) = Ok r → P (pre ++ l) r).
  { induction l as [|b l IH]; intros pre a Ha Hr; cbn [foldM] in Hr.
    - rewrite app_nil_r. by injection Hr as <-.
    - apply outcome_bind_inv in Hr as (a' & Ha' & Hr).
      replace (pre ++ b :: l) with ((pre ++ [b]) ++ l) by by rewrite <- app_assoc.
      eapply IH; [|done]. by eapply Hstep. }
  intros a Ha. apply (Hgen [] a Ha).
Qed.

(** *** The accessors *)

Lemma read_metadata_returns (file : h5file) (path attr_key : string) :
  ∃ tr v, read_metadata file path attr_key = (tr, Ok v).
Proof.
  unfold read_metadata. destruct file as [f|msg]; [|by eauto].
  destruct (f !! path) as [obj|]; [|by eauto].
  destruct (obj_attrs obj !! attr_key); by eauto.
Qed.

Lemma read_data_returns (file : h5file) (path : string) :
  ∃ tr v, read_data file path = (tr, Ok v).
Proof.
  unfold read_data. destruct file as [f|msg]; [|by eauto].
  destruct (f !! path) as [[?|? data]|]; by eauto.
Qed.

(** Splits a property of a given trace into one goal per event. *)
Ltac forall_events :=
  cbn [trace fst mbind M_bind bind mret M_ret ret emit app];
  repeat (first [apply Forall_nil_2 | apply Forall_cons_2]); eauto.

(** The events of [read_metadata]: the access, then warnings. *)
Lemma read_metadata_traced (file : h5file) (path attr_key : string) :
  traced (fun ev => ev = AttrAccess path attr_key ∨ ∃ msg, ev = Warn msg)
         (read_metadata file path attr_key).
Proof.
  unfold read_metadata, traced. destruct file as [f|msg].
  - destruct (f !! path) as [obj|]; [|forall_events].
    destruct (obj_attrs obj !! attr_key); forall_events.
  - forall_events.
Qed.

Lemma read_data_traced (file : h5file) (path : string) :
  traced (fun ev => ev = DataAccess path ∨ ∃ msg, ev = Warn msg)
         (read_data file path).
Proof.
  unfold read_data, traced. destruct file as [f|msg].
  - destruct (f !! path) as [[?|? data]|]; forall_events.
  - forall_events.
Qed.

(** *** One run *)

Lemma traced_pure {A} (Q : event → Prop) (m : M A) : trace m = [] → traced Q m.
Proof. unfold traced. intros ->. constructor. Qed.

Lemma index_trace {A} (xs : list A) (i : nat) : trace (index xs i) = [].
Proof. unfold index. by destruct (xs !! i). Qed.

Lemma py_add_trace (x y : pyobj) : trace (py_add x y) = [].
Proof. by destruct x, y. Qed.

Lemma py_sub_trace (x y : pyobj) : trace (py_sub x y) = [].
Proof. by destruct x, y. Qed.

Lemma py_mul_trace (x y : pyobj) : trace (py_mul x y) = [].
Proof. by destruct x, y. Qed.

Lemma py_truediv_trace (x y : pyobj) : trace (py_truediv x y) = [].
Proof. destruct x, y; try done. simpl. by destruct (Num.is_zero _). Qed.

Lemma as_slice_index_trace (a : option attr) : trace (as_slice_index a) = [].
Proof. by destruct a as [[]|]. Qed.

(** Applies the rules of [traced] along the binds of a computation. *)
Ltac traced_steps :=
  repeat first
    [ apply traced_ret
    | apply traced_raise
    | apply traced_pure, index_trace
    | apply traced_pure, py_add_trace
    | apply traced_pure, py_sub_trace
    | apply traced_pure, py_mul_trace
    | apply traced_pure, py_truediv_trace
    | apply traced_pure, as_slice_index_trace
    | apply traced_emit; done
    | apply traced_bind; [|intros ? _] ].

Lemma integral_traced (data time_steps : list number) :
  traced run_event (integral_with_time_step data time_steps).
Proof.
  unfold integral_with_time_step.
  destruct (negb (length data =? length time_steps)%nat).
  - traced_steps.
  - apply traced_bind; [|intros ? _; apply traced_ret].
    apply traced_foldM. intros acc i _. traced_steps.
Qed.

Lemma service_loss_traced (service_fill service_target : pyobj) :
  traced run_event (calculate_service_loss service_fill service_target).
Proof. unfold calculate_service_loss. traced_steps. Qed.

Lemma run_metrics_traced (group run : string) (setpoint : number)
    (start_time_index : option attr)
    (tank_pressure pump_1 pump_2 time : list number) :
  traced run_event (run_metrics group run setpoint start_time_index
                      tank_pressure pump_1 pump_2 time).
Proof.
  unfold run_metrics.
  apply traced_bind; [destruct (negb _); traced_steps|intros ? _].
  apply traced_bind; [traced_steps|intros ? _].
  apply traced_bind; [apply integral_traced|intros ? _].
  apply traced_bind; [apply integral_traced|intros ? _].
  apply traced_bind; [apply service_loss_traced|intros ? _].
  apply traced_bind; [apply integral_traced|intros ? _].
  apply traced_bind; [apply integral_traced|intros ? _].
  unfold convert_Ws_to_Wh. traced_steps.
Qed.

Lemma read_data_run_event (file : h5file) (path : string) :
  traced run_event (read_data file path).
Proof.
  eapply traced_impl; [|apply read_data_traced].
  intros ev [->|[msg ->]]; done.
Qed.

Lemma run_step_traced (file_path : h5file) (group : string) (setpoint : number)
    (lists : list pyobj * list pyobj) (run_id : nat) :
  traced run_event (run_step file_path group setpoint lists run_id).
Proof.
  unfold run_step. destruct lists as [groups_service_loss groups_power].
  apply traced_bind; [|intros start _].
  { eapply traced_impl; [|apply read_metadata_traced].
    intros ev [->|[msg ->]]; done. }
  apply traced_bind; [apply read_data_run_event|intros tank _].
  apply traced_bind; [apply read_data_run_event|intros p1 _].
  apply traced_bind; [apply read_data_run_event|intros p2 _].
  apply traced_bind; [apply read_data_run_event|intros time _].
  destruct tank, p1, p2, time; try by traced_steps.
  apply traced_bind; [apply run_metrics_traced|intros [loss wh] _].
  traced_steps.
Qed.

(** The floats Python's arithmetic gives: never [None]. *)
Lemma py_mul_float (x y v : pyobj) : outcome (py_mul x y) = Ok v → is_float v.
Proof. destruct x, y; try done. intros [= <-]. by eexists. Qed.

Lemma py_truediv_float (x y v : pyobj) :
  outcome (py_truediv x y) = Ok v → is_float v.
Proof.
  destruct x, y; try done. simpl. destruct (Num.is_zero _); [done|].
  intros [= <-]. by eexists.
Qed.

Lemma service_loss_float (service_fill service_target v : pyobj) :
  outcome (calculate_service_loss service_fill service_target) = Ok v →
  is_float v.
Proof.
  unfold calculate_service_loss. intros Hv.
  apply outcome_bind_inv in Hv as (q & _ & Hv).
  apply outcome_bind_inv in Hv as (d & _ & Hv).
  by eapply py_mul_float.
Qed.

Lemma run_metrics_floats (group run : string) (setpoint : number)
    (start_time_index : option attr)
    (tank_pressure pump_1 pump_2 time : list number) (loss wh : pyobj) :
  outcome (run_metrics group run setpoint start_time_index
             tank_pressure pump_1 pump_2 time) = Ok (loss, wh) →
  is_float loss ∧ is_float wh.
Proof.
  unfold run_metrics. intros H.
  apply outcome_bind_inv in H as (? & _ & H).
  apply outcome_bind_inv in H as (start & _ & H).
  apply outcome_bind_inv in H as (fill & _ & H).
  apply outcome_bind_inv in H as (target & _ & H).
  apply outcome_bind_inv in H as (loss' & Hloss & H).
  apply outcome_bind_inv in H as (e1 & _ & H).
  apply outcome_bind_inv in H as (e2 & _ & H).
  apply outcome_bind_inv in H as (ws & _ & H).
  apply outcome_bind_inv in H as (wh' & Hwh & H).
  injection H as <- <-. split.
  - by eapply service_loss_float.
  - by eapply py_truediv_float.
Qed.

(** One turn of the inner loop, by what the archive holds for the run. *)
Lemma run_step_cases (file_path : h5file) (group : string) (setpoint : number)
    (groups_service_loss groups_power : list pyobj) (run_id : nat) :
  let run := run_name run_id in
  let base_path := group +:+ "/" +:+ run in
  ∃ start tank_pressure pump_1 pump_2 time,
    outcome (read_metadata file_path base_path "analyse_start_time_index")
    = Ok start
    ∧ outcome (read_data file_path (base_path +:+ "/tank_1_pressure"))
      = Ok tank_pressure
    ∧ outcome (read_data file_path (base_path +:+ "/pump_1_power")) = Ok pump_1
    ∧ outcome (read_data file_path (base_path +:+ "/pump_2_power")) = Ok pump_2
    ∧ outcome (read_data file_path (base_path +:+ "/time")) = Ok time
    ∧ outcome (run_step file_path group setpoint
                 (groups_service_loss, groups_power) run_id)
      = match tank_pressure, pump_1, pump_2, time with
        | Some tank_pressure, Some pump_1, Some pump_2, Some time =>
            match outcome (run_metrics group run setpoint start
                             tank_pressure pump_1 pump_2 time) with
            | Ok (service_loss_percent, total_energy_wh) =>
                Ok (groups_service_loss ++ [service_loss_percent],
                    groups_power ++ [total_energy_wh])
            | Raise e => Raise e
            end
        | _, _, _, _ =>
            Ok (groups_service_loss ++ [PyFloat NaN],
                groups_power ++ [PyFloat NaN])
        end.
Proof.
  intros run base_path. unfold run_step. fold run. fold base_path.
  destruct (read_metadata_returns file_path base_path "analyse_start_time_index")
    as (tr0 & start & H0).
  destruct (read_data_returns file_path (base_path +:+ "/tank_1_pressure"))
    as (tr1 & tank & H1).
  destruct (read_data_returns file_path (base_path +:+ "/pump_1_power"))
    as (tr2 & p1 & H2).
  destruct (read_data_returns file_path (base_path +:+ "/pump_2_power"))
    as (tr3 & p2 & H3).
  destruct (read_data_returns file_path (base_path +:+ "/time"))
    as (tr4 & time & H4).
  exists start, tank, p1, p2, time.
  rewrite H0, H1, H2, H3, H4. repeat (split; [done|]).
  rewrite !(outcome_bind _ _ _ _ eq_refl).
  destruct tank as [tank|], p1 as [p1|], p2 as [p2|], time as [time|];
    try reflexivity.
  destruct (run_metrics group run setpoint start tank p1 p2 time)
    as [tr [[loss wh]|e]]; reflexivity.
Qed.

(** A service signal and a time base of different lengths after slicing:
    both service integrals are [None], and the division of [None] by [None]
    is a [TypeError]. *)
Lemma run_metrics_length_mismatch (group run : string) (setpoint : number)
    (start : option Z) (tank_pressure pump_1 pump_2 time : list number) :
  length (slice_from start tank_pressure) ≠ length (slice_from start time) →
  outcome (run_metrics group run setpoint (AttrInt <$> start)
             tank_pressure pump_1 pump_2 time)
  = Raise TypeError.
Proof.
  intros Hlen. unfold run_metrics.
  destruct (negative_power_note
              (negb (check_negative_values pump_1 && check_negative_values pump_2))
              ("Warning: Negative power values in " +:+ group +:+ ", " +:+ run))
    as [tr Hnote].
  rewrite (outcome_bind _ _ _ _ Hnote).
  rewrite as_slice_index_int, bind_ret_l.
  assert (Hfill : length (slice_from start (cap_service_data tank_pressure setpoint))
                  ≠ length (slice_from start time)).
  { rewrite (slice_from_length start _ tank_pressure); [done|].
    apply cap_service_data_length. }
  rewrite (outcome_bind _ _ _ _ (integral_length_mismatch _ _ Hfill)).
  assert (Htarget : length ((fun _ : number => setpoint)
                              <$> slice_from start (cap_service_data tank_pressure setpoint))
                    ≠ length (slice_from start time)).
  { by rewrite length_fmap. }
  rewrite (outcome_bind _ _ _ _ (integral_length_mismatch _ _ Htarget)).
  reflexivity.
Qed.

(** The pipeline on the archive of one run: an exception of the run leaves
    the inner loop, the outer loop and the pipeline. *)
Lemma one_run_raises (setpoint : number) (start : Z)
    (tank_pressure pump_1 pump_2 time : list number) (e : exn) :
  outcome (run_metrics "G" "run_01" setpoint (Some (AttrInt start))
             tank_pressure pump_1 pump_2 time) = Raise e →
  outcome (process_groups
             (one_run_file setpoint start tank_pressure pump_1 pump_2 time)
             ["G"] ["G"])
  = Raise e.
Proof.
  intros Hrun.
  set (file := one_run_file setpoint start tank_pressure pump_1 pump_2 time).
  assert (Hsp : read_metadata file "G" "setpoint"
                = ([AttrAccess "G" "setpoint"], Ok (Some (AttrFloat setpoint))))
    by (vm_compute; reflexivity).
  assert (Hname : run_name 1 = "run_01") by (vm_compute; reflexivity).
  destruct (run_step_cases file "G" setpoint [] [] 1)
    as (st & tank & p1 & p2 & tm & H0 & H1 & H2 & H3 & H4 & Hstep).
  rewrite Hname in H0, H1, H2, H3, H4, Hstep.
  assert (st = Some (AttrInt start)) as ->
    by (vm_compute in H0; by injection H0).
  assert (tank = Some tank_pressure) as ->
    by (vm_compute in H1; by injection H1).
  assert (p1 = Some pump_1) as -> by (vm_compute in H2; by injection H2).
  assert (p2 = Some pump_2) as -> by (vm_compute in H3; by injection H3).
  assert (tm = Some time) as -> by (vm_compute in H4; by injection H4).
  rewrite Hrun in Hstep.
  unfold process_groups. cbn [foldM]. apply outcome_bind_raise.
  unfold group_step. rewrite bool_decide_eq_true_2 by set_solver. cbn [negb].
  rewrite (outcome_bind _ _ _ _ Hsp). cbn [attr_number].
  apply outcome_bind_raise.
  change run_ids with (1%nat :: seq 2 9). cbn [foldM].
  by apply outcome_bind_raise.
Qed.

(** *** C9 *)

(** C9.  On floats [calculate_service_loss] raises [ZeroDivisionError] when
    and only when the target is [0]: any other target gives a float.  A zero
    target arises from an analysis window of at most one sample; the
    exception then leaves the computation of the run, and with it the
    pipeline. *)
Theorem C9_zero_target_raises :
  (∀ fill target : number,
      outcome (calculate_service_loss (PyFloat fill) (PyFloat target))
      = Raise ZeroDivisionError
      ↔ target = Fin 0)
  ∧ (∀ fill target : number,
        target ≠ Fin 0 →
        ∃ v, calculate_service_loss (PyFloat fill) (PyFloat target)
             = mret (PyFloat v))
  ∧ (∀ (group run : string) (setpoint : number) (start : option Z)
       (tank_pressure pump_1 pump_2 time : list number),
        length tank_pressure = length time →
        (length (slice_from start time) <= 1)%nat →
        outcome (run_metrics group run setpoint (AttrInt <$> start)
                   tank_pressure pump_1 pump_2 time)
        = Raise ZeroDivisionError)
  ∧ (∀ (setpoint : number) (start : Z)
       (tank_pressure pump_1 pump_2 time : list number),
        length tank_pressure = length time →
        (length (slice_from (Some start) time) <= 1)%nat →
        outcome (process_groups
                   (one_run_file setpoint start tank_pressure pump_1 pump_2 time)
                   ["G"] ["G"])
        = Raise ZeroDivisionError).
Proof.
  split; [|split; [|split]].
  - intros fill target. split.
    + intros Hraise. destruct (decide (Num.is_zero target = true)) as [Hz|Hz].
      * by apply is_zero_spec.
      * destruct (service_loss_nonzero_target fill target) as [v Hv].
        { intros ->. apply Hz. by apply is_zero_spec. }
        by rewrite Hv in Hraise.
    + intros ->. by rewrite service_loss_zero_target.
  - apply service_loss_nonzero_target.
  - apply run_metrics_zero_window.
  - intros setpoint start tank_pressure pump_1 pump_2 time Hlen Hshort.
    apply one_run_raises.
    by apply (run_metrics_zero_window "G" "run_01" setpoint (Some start)).
Qed.

Lemma C9_zero_target_raises_witness :
  (∃ v, calculate_service_loss (PyFloat (Fin 5)) (PyFloat (Fin 10))
        = mret (PyFloat v))
  ∧ outcome (run_metrics "g" "run_01" (Fin 5) (Some (AttrInt 4))
               (Fin <$> [6; 5; 4; 3; -1]%R) (Fin <$> [1; 1; 1; 1; 1]%R)
               (Fin <$> [1; 1; 1; 1; 1]%R) (Fin <$> [0; 1; 2; 3; 4]%R))
    = Raise ZeroDivisionError
  ∧ outcome (process_groups
               (one_run_file (Fin 5) 4 (Fin <$> [6; 5; 4; 3; -1]%R)
                  (Fin <$> [1; 1; 1; 1; 1]%R) (Fin <$> [1; 1; 1; 1; 1]%R)
                  (Fin <$> [0; 1; 2; 3; 4]%R))
               ["G"] ["G"])
    = Raise ZeroDivisionError.
Proof.
  destruct C9_zero_target_raises as (_ & Hfloat & Hwindow & Hpipeline).
  split; [|split].
  - apply Hfloat. intros [= H]. lra.
  - apply (Hwindow "g" "run_01" (Fin 5) (Some 4%Z)).
    + reflexivity.
    + simpl. lia.
  - apply Hpipeline.
    + reflexivity.
    + simpl. lia.
Defined.

(** *** C2 *)

(** C2, at a run whose pressure has three samples and whose time base has
    two.  The integration step warns and gives [None], which is not fatal by
    itself; but the orchestrator divides the two [None] integrals: the run
    raises [TypeError], no placeholder is appended, and the pipeline ends
    with that exception instead of a table. *)
Theorem C2_length_mismatch_aborts :
  let tank_pressure := Fin <$> [1; 2; 3]%R in
  let pump := Fin <$> [1; 1]%R in
  let time := Fin <$> [0; 1]%R in
  integral_with_time_step (cap_service_data tank_pressure (Fin 5)) time
  = ([Warn "Data and time arrays have different lengths."], Ok PyNone)
  ∧ outcome (run_metrics "G" "run_01" (Fin 5) (Some (AttrInt 0))
               tank_pressure pump pump time)
    = Raise TypeError
  ∧ outcome (process_groups (one_run_file (Fin 5) 0 tank_pressure pump pump time)
               ["G"] ["G"])
    = Raise TypeError.
Proof.
  intros tank_pressure pump time.
  assert (Hrun : outcome (run_metrics "G" "run_01" (Fin 5) (Some (AttrInt 0))
                            tank_pressure pump pump time)
                 = Raise TypeError).
  { apply (run_metrics_length_mismatch "G" "run_01" (Fin 5) (Some 0%Z)).
    simpl. lia. }
  split; [|split].
  - apply integral_length_mismatch. simpl. lia.
  - exact Hrun.
  - by apply one_run_raises.
Qed.

(** *** The lists of a group *)

(** A run whose data is not all there appends not-a-number twice. *)
Lemma run_step_missing (file_path : h5file) (group : string) (setpoint : number)
    (groups_service_loss groups_power : list pyobj) (run_id : nat) :
  let base_path := group +:+ "/" +:+ run_name run_id in
  outcome (read_data file_path (base_path +:+ "/tank_1_pressure")) = Ok None
  ∨ outcome (read_data file_path (base_path +:+ "/pump_1_power")) = Ok None
  ∨ outcome (read_data file_path (base_path +:+ "/pump_2_power")) = Ok None
  ∨ outcome (read_data file_path (base_path +:+ "/time")) = Ok None →
  outcome (run_step file_path group setpoint
             (groups_service_loss, groups_power) run_id)
  = Ok (groups_service_loss ++ [PyFloat NaN], groups_power ++ [PyFloat NaN]).
Proof.
  intros base_path Hmissing.
  destruct (run_step_cases file_path group setpoint
              groups_service_loss groups_power run_id)
    as (st & tank & p1 & p2 & tm & _ & H1 & H2 & H3 & H4 & ->).
  fold base_path in H1, H2, H3, H4.
  rewrite H1, H2, H3, H4 in Hmissing.
  destruct tank, p1, p2, tm; try done.
  by destruct Hmissing as [?|[?|[?|?]]].
Qed.

(** Every entry a run appends is a float. *)
Lemma run_step_floats (file_path : h5file) (group : string) (setpoint : number)
    (lists lists' : list pyobj * list pyobj) (run_id : nat) :
  Forall is_float lists.1 ∧ Forall is_float lists.2 →
  outcome (run_step file_path group setpoint lists run_id) = Ok lists' →
  Forall is_float lists'.1 ∧ Forall is_float lists'.2.
Proof.
  destruct lists as [losses powers]. intros [Hl Hp] Hstep.
  destruct (run_step_cases file_path group setpoint losses powers run_id)
    as (st & tank & p1 & p2 & tm & _ & _ & _ & _ & _ & Hcases).
  rewrite Hcases in Hstep. clear Hcases.
  assert (Hnan : Forall is_float (losses ++ [PyFloat NaN])
                 ∧ Forall is_float (powers ++ [PyFloat NaN])).
  { split; (apply Forall_app; split; [done|]);
      apply Forall_singleton; by eexists. }
  destruct tank as [tank|], p1 as [p1|], p2 as [p2|], tm as [tm|];
    try (by injection Hstep as <-).
  destruct (outcome (run_metrics group (run_name run_id) setpoint st tank p1 p2 tm))
    as [[loss wh]|e] eqn:Hrun; [|done].
  injection Hstep as <-. simpl.
  apply run_metrics_floats in Hrun as [Hloss Hwh].
  split; (apply Forall_app; split; [done|]); by apply Forall_singleton.
Qed.

Lemma group_lists_floats (file_path : h5file) (group : string)
    (setpoint : number) (groups_service_loss groups_power : list pyobj) :
  outcome (foldM (run_step file_path group setpoint) ([], []) run_ids)
  = Ok (groups_service_loss, groups_power) →
  Forall is_float groups_service_loss ∧ Forall is_float groups_power.
Proof.
  intros Hloop.
  pose proof (foldM_invariant
                (fun _ lists => Forall is_float lists.1 ∧ Forall is_float lists.2)
                (run_step file_path group setpoint) ([], []) run_ids
                (groups_service_loss, groups_power)) as Hinv.
  apply Hinv; [by split|..|done].
  intros _ lists run_id lists'. apply run_step_floats.
Qed.

(** *** C10 *)

(** The claim fails at a list with a [None] entry: the conversion to a float
    array makes it not-a-number and the aggregation returns. *)
Lemma C10_none_entry_is_no_error :
  PyNone ∈ [PyFloat (Fin 1); PyNone]
  ∧ outcome (calculate_mean_and_std [PyFloat (Fin 1); PyNone]) = Ok (NaN, NaN)
  ∧ ¬ ∃ e, outcome (calculate_mean_and_std [PyFloat (Fin 1); PyNone]) = Raise e.
Proof.
  split; [set_solver|]. split; [reflexivity|]. by intros [e He].
Qed.

(** C10, amended.  [calculate_mean_and_std] never fails: a [None] entry is
    converted to not-a-number, so a list with a [None] or a not-a-number
    entry gives not-a-number twice.  The missing-run path of the
    orchestrator appends not-a-number, and no entry of the lists of a group
    is [None]. *)
Theorem C10_aggregation_never_fails :
  (∀ data : list pyobj, ∃ r, calculate_mean_and_std data = mret r)
  ∧ (∀ data : list pyobj,
        PyNone ∈ data ∨ PyFloat NaN ∈ data →
        calculate_mean_and_std data = mret (NaN, NaN))
  ∧ (∀ (file_path : h5file) (group : string) (setpoint : number)
       (groups_service_loss groups_power : list pyobj) (run_id : nat),
        let base_path := group +:+ "/" +:+ run_name run_id in
        outcome (read_data file_path (base_path +:+ "/tank_1_pressure")) = Ok None
        ∨ outcome (read_data file_path (base_path +:+ "/pump_1_power")) = Ok None
        ∨ outcome (read_data file_path (base_path +:+ "/pump_2_power")) = Ok None
        ∨ outcome (read_data file_path (base_path +:+ "/time")) = Ok None →
        outcome (run_step file_path group setpoint
                   (groups_service_loss, groups_power) run_id)
        = Ok (groups_service_loss ++ [PyFloat NaN],
              groups_power ++ [PyFloat NaN]))
  ∧ (∀ (file_path : h5file) (group : string) (setpoint : number)
       (groups_service_loss groups_power : list pyobj),
        outcome (foldM (run_step file_path group setpoint) ([], []) run_ids)
        = Ok (groups_service_loss, groups_power) →
        Forall is_float groups_service_loss ∧ Forall is_float groups_power).
Proof.
  split; [|split; [|split]].
  - intros data. by eexists.
  - intros data [Hnone|Hnan]; apply mean_and_std_NaN.
    + by apply asarray_float_None.
    + by apply asarray_float_NaN.
  - apply run_step_missing.
  - apply group_lists_floats.
Qed.

Lemma C10_aggregation_never_fails_witness :
  calculate_mean_and_std [PyFloat (Fin 1); PyNone] = mret (NaN, NaN)
  ∧ outcome (run_step (H5File ∅) "G" (Fin 5) ([], []) 1)
    = Ok ([PyFloat NaN], [PyFloat NaN]).
Proof.
  destruct C10_aggregation_never_fails as (_ & Hnan & Hmissing & _).
  split.
  - apply Hnan. left. set_solver.
  - apply (Hmissing (H5File ∅) "G" (Fin 5) [] [] 1%nat).
    left. reflexivity.
Defined.

(** *** The table of the groups *)

Lemma rows_of_loc_set_other (label group : string) (values : list number)
    (df : DataFrame) :
  label ≠ group → rows_of label (loc_set group values df) = rows_of label df.
Proof.
  intros Hne. unfold rows_of, loc_set. cbn [df_rows].
  induction (df_rows df) as [|[l v] rows IH]; cbn [loc_set_rows].
  - by rewrite filter_cons_False.
  - case_decide as Hl.
    + subst l. by rewrite !filter_cons_False by (simpl; congruence).
    + destruct (decide (l = label)) as [->|Hl'].
      * rewrite !filter_cons_True by done. by rewrite IH.
      * rewrite !filter_cons_False by done. exact IH.
Qed.

Lemma rows_of_loc_set_same (group : string) (values : list number)
    (df : DataFrame) :
  length (rows_of group df) ≤ 1 →
  rows_of group (loc_set group values df) = [(group, values)].
Proof.
  unfold rows_of, loc_set. cbn [df_rows].
  induction (df_rows df) as [|[l v] rows IH]; cbn [loc_set_rows]; intros Hlen.
  - by rewrite filter_cons_True.
  - case_decide as Hl.
    + subst l. rewrite filter_cons_True in Hlen by done.
      rewrite filter_cons_True by done. f_equal.
      apply nil_length_inv. simpl in Hlen. lia.
    + rewrite filter_cons_False in Hlen by done.
      rewrite filter_cons_False by done. by apply IH.
Qed.

Lemma rows_of_nil_not_in_index (label : string) (df : DataFrame) :
  rows_of label df = [] → label ∉ df_index df.
Proof.
  unfold rows_of, df_index. intros Hnil Hin.
  apply list_elem_of_fmap in Hin as (r & -> & Hr).
  assert (Hr' : r ∈ filter (fun r' : string * list number => r'.1 = r.1) (df_rows df))
    by by apply list_elem_of_filter.
  rewrite Hnil in Hr'. by apply elem_of_nil in Hr'.
Qed.

(** *** One group *)

(** One turn of the outer loop that returns did one of three things. *)
Lemma group_step_cases (file_path : h5file) (considered : list string)
    (df df' : DataFrame) (group : string) :
  outcome (group_step file_path considered df group) = Ok df' →
  ((group ∉ considered) ∧ df' = df)
  ∨ (group ∈ considered
     ∧ outcome (read_metadata file_path group "setpoint") = Ok None
     ∧ df' = df)
  ∨ (group ∈ considered
     ∧ ∃ setpoint groups_service_loss groups_power,
         outcome (read_metadata file_path group "setpoint") = Ok (Some setpoint)
         ∧ outcome (foldM (run_step file_path group (attr_number setpoint))
                      ([], []) run_ids)
           = Ok (groups_service_loss, groups_power)
         ∧ df' = loc_set group
                   (aggregated_row groups_service_loss groups_power) df).
Proof.
  unfold group_step. case_bool_decide as Hin; cbn [negb].
  - destruct (read_metadata_returns file_path group "setpoint")
      as (tr & sp & Hsp).
    rewrite (outcome_bind _ _ _ _ Hsp), Hsp. destruct sp as [sp|].
    + intros Hdf. right. right. split; [done|].
      apply outcome_bind_inv in Hdf as ([losses powers] & Hloop & Hdf).
      exists sp, losses, powers. split; [done|]. split; [done|].
      by injection Hdf as <-.
    + intros [= <-]. right. left. done.
  - intros [= <-]. by left.
Qed.

Lemma group_step_traced (file_path : h5file) (considered : list string)
    (df : DataFrame) (group : string) :
  traced (fun ev => ∀ g, ev = setpoint_query g → g ∈ considered)
         (group_step file_path considered df group).
Proof.
  unfold group_step. case_bool_decide as Hin; cbn [negb]; [|apply traced_ret].
  apply traced_bind.
  { eapply traced_impl; [|apply read_metadata_traced].
    intros ev [->|[msg ->]] g; [|done]. by intros [= <-]. }
  intros [sp|] _.
  - apply traced_bind; [|intros [losses powers] _; traced_steps].
    apply traced_foldM. intros lists run_id _.
    eapply traced_impl; [|apply run_step_traced].
    intros ev Hev g ->. done.
  - traced_steps.
Qed.

Lemma process_groups_traced (file_path : h5file)
    (group_names considered : list string) :
  traced (fun ev => ∀ g, ev = setpoint_query g → g ∈ considered)
         (process_groups file_path group_names considered).
Proof.
  unfold process_groups. apply traced_foldM. intros df group _.
  apply group_step_traced.
Qed.

(** *** C8 *)

(** The claim fails at an allow-listed group with a setpoint whose first run
    has a single sample: the target integral is [0.0], the division raises,
    and the pipeline ends without a table, hence without a row. *)
Lemma C8_aborted_group_has_no_outcome :
  let file := one_run_file (Fin 5) 0 [Fin 1] [Fin 1] [Fin 1] [Fin 0] in
  "G" ∈ ["G"]
  ∧ outcome (read_metadata file "G" "setpoint") = Ok (Some (AttrFloat (Fin 5)))
  ∧ outcome (process_groups file ["G"] ["G"]) = Raise ZeroDivisionError
  ∧ ¬ ∃ table, outcome (process_groups file ["G"] ["G"]) = Ok table.
Proof.
  intros file.
  assert (Hraise : outcome (process_groups file ["G"] ["G"])
                   = Raise ZeroDivisionError).
  { apply one_run_raises.
    apply (run_metrics_zero_window "G" "run_01" (Fin 5) (Some 0%Z));
      [reflexivity|simpl; lia]. }
  split; [set_solver|]. split; [by vm_compute|]. split; [exact Hraise|].
  intros [table Htable]. by rewrite Hraise in Htable.
Qed.

(** The state of the outer loop: under every label the table has no row, or
    the one row aggregated from the runs of that group. *)
Lemma process_groups_invariant (file_path : h5file)
    (group_names considered : list string) (table : DataFrame) :
  outcome (process_groups file_path group_names considered) = Ok table →
  (∀ label,
      rows_of label table = []
      ∨ (label ∈ considered
         ∧ ∃ setpoint groups_service_loss groups_power,
             outcome (read_metadata file_path label "setpoint")
             = Ok (Some setpoint)
             ∧ outcome (foldM (run_step file_path label (attr_number setpoint))
                          ([], []) run_ids)
               = Ok (groups_service_loss, groups_power)
             ∧ rows_of label table
               = [(label, aggregated_row groups_service_loss groups_power)]))
  ∧ (∀ group,
        group ∈ group_names → group ∈ considered →
        (∃ setpoint, outcome (read_metadata file_path group "setpoint")
                     = Ok (Some setpoint)) →
        rows_of group table ≠ []).
Proof.
  unfold process_groups. intros Hloop.
  pose proof (foldM_invariant
    (fun pre df =>
       (∀ label,
           rows_of label df = []
           ∨ (label ∈ considered
              ∧ ∃ setpoint groups_service_loss groups_power,
                  outcome (read_metadata file_path label "setpoint")
                  = Ok (Some setpoint)
                  ∧ outcome (foldM (run_step file_path label (attr_number setpoint))
                               ([], []) run_ids)
                    = Ok (groups_service_loss, groups_power)
                  ∧ rows_of label df
                    = [(label, aggregated_row groups_service_loss groups_power)]))
       ∧ (∀ group,
             group ∈ pre → group ∈ considered →
             (∃ setpoint, outcome (read_metadata file_path group "setpoint")
                          = Ok (Some setpoint)) →
             rows_of group df ≠ []))
    (group_step file_path considered) empty_processed_data group_names table)
    as Hinv.
  apply Hinv; [..|done]; clear Hinv Hloop.
  - split; [by left|]. intros group Hin. by apply elem_of_nil in Hin.
  - intros pre df group df' [Hrows Hdone] Hstep.
    apply group_step_cases in Hstep
      as [[Hout ->]|[(Hin & Hnone & ->)|(Hin & sp & losses & powers & Hsp & Hruns & ->)]].
    + split; [done|]. intros g Hg Hcons Hsome.
      apply elem_of_app in Hg as [Hg|Hg]; [by apply Hdone|].
      apply list_elem_of_singleton in Hg as ->. done.
    + split; [done|]. intros g Hg Hcons [sp Hsp].
      apply elem_of_app in Hg as [Hg|Hg]; [apply Hdone; eauto|].
      apply list_elem_of_singleton in Hg as ->. congruence.
    + assert (Hnew : rows_of group (loc_set group (aggregated_row losses powers) df)
                     = [(group, aggregated_row losses powers)]).
      { apply rows_of_loc_set_same.
        destruct (Hrows group) as [->|(_ & ? & ? & ? & _ & _ & ->)]; simpl; lia. }
      split.
      * intros label. destruct (decide (label = group)) as [->|Hne].
        -- right. split; [done|]. by exists sp, losses, powers.
        -- rewrite rows_of_loc_set_other by done. apply Hrows.
      * intros g Hg Hcons Hsome.
        destruct (decide (g = group)) as [->|Hne]; [by rewrite Hnew|].
        rewrite rows_of_loc_set_other by done.
        apply elem_of_app in Hg as [Hg|Hg]; [by apply Hdone|].
        by apply list_elem_of_singleton in Hg.
Qed.

(** C8, amended.  When the pipeline returns its table, every enumerated
    group had exactly one of three outcomes: it is not in the allow-list,
    its setpoint was never queried and it has no row; or it is in the
    allow-list, its setpoint is absent and it has no row; or it is in the
    allow-list, has a setpoint, and the table has exactly one row under its
    id: the row aggregated from its runs. *)
Theorem C8_group_outcomes (file_path : h5file)
    (group_names considered : list string) (table : DataFrame) :
  outcome (process_groups file_path group_names considered) = Ok table →
  ∀ group, group ∈ group_names →
    ((group ∉ considered)
     ∧ (setpoint_query group
          ∉ trace (process_groups file_path group_names considered))
     ∧ group ∉ df_index table)
    ∨ (group ∈ considered
       ∧ outcome (read_metadata file_path group "setpoint") = Ok None
       ∧ group ∉ df_index table)
    ∨ (group ∈ considered
       ∧ ∃ setpoint groups_service_loss groups_power,
           outcome (read_metadata file_path group "setpoint")
           = Ok (Some setpoint)
           ∧ outcome (foldM (run_step file_path group (attr_number setpoint))
                        ([], []) run_ids)
             = Ok (groups_service_loss, groups_power)
           ∧ rows_of group table
             = [(group, aggregated_row groups_service_loss groups_power)]).
Proof.
  intros Htable group Hgroup.
  destruct (process_groups_invariant _ _ _ _ Htable) as [Hrows Hdone].
  destruct (decide (group ∈ considered)) as [Hin|Hout].
  - destruct (read_metadata_returns file_path group "setpoint")
      as (tr & [sp|] & Hsp).
    + right. right. split; [done|].
      destruct (Hrows group) as [Hnil|(_ & Hrow)]; [|done].
      exfalso. apply (Hdone group); [done..| |done].
      exists sp. by rewrite Hsp.
    + right. left. split; [done|]. split; [by rewrite Hsp|].
      apply rows_of_nil_not_in_index.
      destruct (Hrows group) as [Hnil|(_ & sp & ? & ? & Hsome & _)]; [done|].
      rewrite Hsp in Hsome. done.
  - left. split; [done|]. split.
    + intros Hq.
      pose proof (process_groups_traced file_path group_names considered) as Htr.
      unfold traced in Htr. rewrite Forall_forall in Htr.
      by apply Hout, (Htr _ Hq).
    + apply rows_of_nil_not_in_index.
      by destruct (Hrows group) as [Hnil|(Hin & _)].
Qed.

Lemma C8_group_outcomes_witness :
  let file := H5File {[ "A" := H5Group {[ "setpoint" := AttrFloat (Fin 5) ]} ]} in
  let table := loc_set "A" [NaN; NaN; NaN; NaN] empty_processed_data in
  (((("A" : string) ∉ ["A"])
    ∧ (setpoint_query "A" ∉ trace (process_groups file ["A"; "B"] ["A"]))
    ∧ "A" ∉ df_index table)
   ∨ ("A" ∈ ["A"]
      ∧ outcome (read_metadata file "A" "setpoint") = Ok None
      ∧ "A" ∉ df_index table)
   ∨ ("A" ∈ ["A"]
      ∧ ∃ setpoint groups_service_loss groups_power,
          outcome (read_metadata file "A" "setpoint") = Ok (Some setpoint)
          ∧ outcome (foldM (run_step file "A" (attr_number setpoint))
                       ([], []) run_ids)
            = Ok (groups_service_loss, groups_power)
          ∧ rows_of "A" table
            = [("A", aggregated_row groups_service_loss groups_power)])).
Proof.
  intros file table.
  apply (C8_group_outcomes file ["A"; "B"] ["A"] table).
  - vm_compute. reflexivity.
  - set_solver.
Defined.

(* ===================================================================== *)
(** ** Further properties of functions.py *)
(* ===================================================================== *)

(** *** The group names *)

Lemma bind_length_const {A B} (f : A → list B) (l : list A) (n : nat) :
  (∀ x, x ∈ l → length (f x) = n) → length (l ≫= f) = (length l * n)%nat.
Proof.
  induction l as [|x l IH]; intros Hf; [done|].
  rewrite bind_cons, length_app, IH, Hf; [simpl; lia|by left|].
  intros y Hy. apply Hf. by right.
Qed.

(** X1.  [generate_group_name] gives one name for every combination of a
    controller, a topology and a disruption, and nothing else: as many
    names as the product of the three lengths, each of the form
    [c_t_d]; a bare string counts as a list of one. *)
Theorem X1_group_names_are_the_combinations
    (controller topology disruption : str_or_list) :
  length (generate_group_name controller topology disruption)
  = (length (as_list controller) * length (as_list topology)
     * length (as_list disruption))%nat
  ∧ (∀ name : string,
        name ∈ generate_group_name controller topology disruption
        ↔ ∃ c t d, c ∈ as_list controller ∧ t ∈ as_list topology
                   ∧ d ∈ as_list disruption
                   ∧ name = c +:+ "_" +:+ t +:+ "_" +:+ d)
  ∧ (∀ c t d : string, generate_group_name (Str c) (Str t) (Str d)
                       = [c +:+ "_" +:+ t +:+ "_" +:+ d]).
Proof.
  unfold generate_group_name. split; [|split].
  - rewrite (bind_length_const _ _
               (length (as_list topology) * length (as_list disruption))); [lia|].
    intros c _. apply bind_length_const. intros t _.
    rewrite (bind_length_const _ _ 1); [lia|done].
  - intros name. rewrite list_elem_of_bind. split.
    + intros (c & Hname & Hc).
      apply list_elem_of_bind in Hname as (t & Hname & Ht).
      apply list_elem_of_bind in Hname as (d & Hname & Hd).
      apply list_elem_of_singleton in Hname. by exists c, t, d.
    + intros (c & t & d & Hc & Ht & Hd & ->).
      exists c. split; [|done]. apply list_elem_of_bind.
      exists t. split; [|done]. apply list_elem_of_bind.
      exists d. split; [|done]. by apply list_elem_of_singleton.
  - reflexivity.
Qed.

(** *** The accessors *)

(** X3.  [read_data] never raises.  It gives the content exactly when the
    file opens and the path holds a dataset, without a warning; a path that
    holds a group, a missing path or a file that does not open give [None]
    after exactly one warning. *)
Theorem X3_read_data_dataset_or_one_warning (file : h5file) (path : string) :
  (∀ data : list number,
      read_data file path = ([DataAccess path], Ok (Some data))
      ↔ ∃ f attrs, file = H5File f ∧ f !! path = Some (H5Dataset attrs data))
  ∧ ((¬ ∃ f attrs data, file = H5File f
                        ∧ f !! path = Some (H5Dataset attrs data)) →
     ∃ msg, read_data file path = ([DataAccess path; Warn msg], Ok None))
  ∧ (∀ f attrs, file = H5File f → f !! path = Some (H5Group attrs) →
        read_data file path
        = ([DataAccess path; Warn ("Path '" +:+ path +:+ "' is not a dataset.")],
           Ok None)).
Proof.
  unfold read_data. split; [|split].
  - intros data. split.
    + destruct file as [f|msg]; [|done].
      destruct (f !! path) as [[attrs|attrs data']|] eqn:Hobj; try done.
      intros [= <-]. by exists f, attrs.
    + intros (f & attrs & -> & ->). reflexivity.
  - intros Hnone. destruct file as [f|msg]; [|by eexists].
    destruct (f !! path) as [[attrs|attrs data]|] eqn:Hobj; try by eexists.
    destruct Hnone. by exists f, attrs, data.
  - intros f attrs -> ->. reflexivity.
Qed.

Lemma X3_read_data_dataset_or_one_warning_witness :
  read_data (H5File {[ "G" := H5Group ∅ ]}) "G"
  = ([DataAccess "G"; Warn ("Path '" +:+ "G" +:+ "' is not a dataset.")],
     Ok None).
Proof.
  apply (proj2 (proj2 (X3_read_data_dataset_or_one_warning
                         (H5File {[ "G" := H5Group ∅ ]}) "G"))
           {[ "G" := H5Group ∅ ]} ∅).
  - reflexivity.
  - apply lookup_singleton_eq.
Defined.

(** *** The signal conditioner *)

Lemma geb_zero_spec (x : number) : Num.geb x (Fin 0) = true ↔ Num.le (Fin 0) x.
Proof.
  destruct x as [|r]; simpl; [done|].
  destruct (Rle_dec 0 r); split; done.
Qed.

Lemma check_negative_values_forall (array : list number) :
  check_negative_values array = true
  ↔ Forall (fun x => Num.le (Fin 0) x) array.
Proof.
  unfold check_negative_values.
  rewrite forallb_forall, Forall_forall. split; intros H x Hx.
  - apply geb_zero_spec, H. by apply list_elem_of_In.
  - apply geb_zero_spec, H. by apply list_elem_of_In.
Qed.

(** X4.  [check_negative_values] is true exactly when every element is at
    least [0]; an element that is not-a-number makes it false, and the empty
    array passes. *)
Theorem X4_check_negative_values_spec (array : list number) :
  (check_negative_values array = true
   ↔ Forall (fun x => Num.le (Fin 0) x) array)
  ∧ (NaN ∈ array → check_negative_values array = false)
  ∧ check_negative_values [] = true.
Proof.
  split; [apply check_negative_values_forall|]. split; [|done].
  intros Hnan. apply not_true_is_false. intros Htrue.
  apply check_negative_values_forall in Htrue.
  rewrite Forall_forall in Htrue. exact (Htrue NaN Hnan).
Qed.

Lemma X4_check_negative_values_spec_witness :
  check_negative_values [Fin 1; NaN] = false.
Proof.
  apply (proj1 (proj2 (X4_check_negative_values_spec [Fin 1; NaN]))).
  set_solver.
Defined.

(** X5.  Capping twice is capping once, for every signal and every
    setpoint. *)
Theorem X5_cap_idempotent (service_data : list number) (setpoint : number) :
  cap_service_data (cap_service_data service_data setpoint) setpoint
  = cap_service_data service_data setpoint.
Proof.
  unfold cap_service_data. rewrite <- list_fmap_compose.
  apply list_fmap_ext. intros _ x _. simpl.
  destruct x as [|x], setpoint as [|sp]; try reflexivity.
  rewrite !clip_reals. f_equal. real_cases.
Qed.

(** X6.  A setpoint below [0] is not refused: every element that is a number
    is then replaced by the setpoint itself, so the capped signal leaves the
    range the capping is meant to enforce. *)
Theorem X6_cap_negative_setpoint (service_data : list R) (setpoint : R) :
  (setpoint < 0)%R →
  cap_service_data (Fin <$> service_data) (Fin setpoint)
  = (fun _ => Fin setpoint) <$> service_data.
Proof.
  intros Hsp. unfold cap_service_data. rewrite <- list_fmap_compose.
  apply list_fmap_ext. intros _ x _. simpl.
  rewrite clip_reals. f_equal. real_cases.
Qed.

Lemma X6_cap_negative_setpoint_witness :
  cap_service_data (Fin <$> [6; 2; -3]%R) (Fin (-1))
  = (fun _ => Fin (-1)) <$> [6; 2; -3]%R.
Proof. apply X6_cap_negative_setpoint. lra. Defined.

(* ===================================================================== *)
(** ** Further properties of main.py *)
(* ===================================================================== *)

(** *** The start index and the advisory of a run *)

(** X10.  A run whose start index is absent is analysed from its first
    sample, exactly as with the index [0]; a start index stored as a float
    is not a valid slice bound, and the run raises [TypeError]. *)
Theorem X10_start_index_absent_or_float (group run : string)
    (setpoint : number) (tank_pressure pump_1 pump_2 time : list number) :
  run_metrics group run setpoint None tank_pressure pump_1 pump_2 time
  = run_metrics group run setpoint (Some (AttrInt 0))
      tank_pressure pump_1 pump_2 time
  ∧ (∀ x : number,
        outcome (run_metrics group run setpoint (Some (AttrFloat x))
                   tank_pressure pump_1 pump_2 time)
        = Raise TypeError).
Proof.
  split; [reflexivity|].
  intros x. unfold run_metrics.
  destruct (negative_power_note
              (negb (check_negative_values pump_1 && check_negative_values pump_2))
              ("Warning: Negative power values in " +:+ group +:+ ", " +:+ run))
    as [tr Hnote].
  by rewrite (outcome_bind _ _ _ _ Hnote).
Qed.

Lemma integral_warns (data time_steps : list number) :
  traced is_warning (integral_with_time_step data time_steps).
Proof.
  unfold integral_with_time_step.
  destruct (negb (length data =? length time_steps)%nat).
  - apply traced_bind; [apply traced_emit; by eexists|intros ? _; apply traced_ret].
  - apply traced_bind; [|intros ? _; apply traced_ret].
    apply traced_foldM. intros acc i _. traced_steps.
Qed.

(** X11.  The advisory about negative power is printed by a run exactly when
    some reading of one of the two pumps is not at least [0]. *)
Theorem X11_negative_power_advisory (group run : string) (setpoint : number)
    (start_time_index : option attr)
    (tank_pressure pump_1 pump_2 time : list number) :
  negative_power_warning group run
    ∈ trace (run_metrics group run setpoint start_time_index
               tank_pressure pump_1 pump_2 time)
  ↔ ¬ (Forall (fun x => Num.le (Fin 0) x) pump_1
       ∧ Forall (fun x => Num.le (Fin 0) x) pump_2).
Proof.
  assert (Hrest : ∀ k : unit,
    traced is_warning
      (start ← as_slice_index start_time_index;
       service_fill_integral ←
         integral_with_time_step
           (slice_from start (cap_service_data tank_pressure setpoint))
           (slice_from start time);
       service_target_integral ←
         integral_with_time_step
           ((fun _ => setpoint)
              <$> slice_from start (cap_service_data tank_pressure setpoint))
           (slice_from start time);
       service_loss_percent ←
         calculate_service_loss service_fill_integral service_target_integral;
       e1 ← integral_with_time_step pump_1 time;
       e2 ← integral_with_time_step pump_2 time;
       total_energy_ws ← py_add e1 e2;
       total_energy_wh ← convert_Ws_to_Wh total_energy_ws;
       mret (service_loss_percent, total_energy_wh))).
  { intros _.
    apply traced_bind; [traced_steps|intros ? _].
    apply traced_bind; [apply integral_warns|intros ? _].
    apply traced_bind; [apply integral_warns|intros ? _].
    apply traced_bind; [unfold calculate_service_loss; traced_steps|intros ? _].
    apply traced_bind; [apply integral_warns|intros ? _].
    apply traced_bind; [apply integral_warns|intros ? _].
    unfold convert_Ws_to_Wh. traced_steps. }
  specialize (Hrest tt). unfold traced in Hrest. rewrite Forall_forall in Hrest.
  unfold run_metrics, negative_power_warning.
  rewrite <- !check_negative_values_forall.
  destruct (check_negative_values pump_1 && check_negative_values pump_2)
    eqn:Hcheck; cbn [negb].
  - rewrite bind_ret_l. apply andb_true_iff in Hcheck. split; [|tauto].
    intros Hin. apply Hrest in Hin as [msg Hmsg]. done.
  - erewrite trace_bind by reflexivity. apply andb_false_iff in Hcheck.
    split; [|intros _; by left].
    intros _ [H1 H2]. destruct Hcheck; congruence.
Qed.

(** *** The lists of a group *)

Lemma foldM_invariant_split {A B} (P : list B → A → Prop) (f : A → B → M A)
    (a : A) (l : list B) (r : A) :
  P [] a →
  (∀ pre b post a a',
      l = pre ++ b :: post →
      P pre a → outcome (f a b) = Ok a' → P (pre ++ [b]) a') →
  outcome (foldM f a l) = Ok r →
  P l r.
Proof.
  intros Ha Hstep.
  assert (Hgen : ∀ pre post a,
             l = pre ++ post → P pre a →
             outcome (foldM f a post) = Ok r → P l r).
  { intros pre post. revert pre.
    induction post as [|b post IH]; intros pre a0 Hl Hpre Hr; cbn [foldM] in Hr.
    - rewrite app_nil_r in Hl. subst pre. by injection Hr as <-.
    - apply outcome_bind_inv in Hr as (a' & Ha' & Hr).
      apply (IH (pre ++ [b]) a'); [by rewrite <- app_assoc| |done].
      by eapply Hstep. }
  apply (Hgen [] l a eq_refl Ha).
Qed.

(** What one turn of the inner loop does to the lists: one entry more on
    each, after the entries that were there. *)
Lemma run_step_appends (file_path : h5file) (group : string) (setpoint : number)
    (lists lists' : list pyobj * list pyobj) (run_id : nat) :
  outcome (run_step file_path group setpoint lists run_id) = Ok lists' →
  ∃ loss energy, lists' = (lists.1 ++ [loss], lists.2 ++ [energy]).
Proof.
  destruct lists as [losses powers]. intros Hstep.
  destruct (run_step_cases file_path group setpoint losses powers run_id)
    as (st & tank & p1 & p2 & tm & _ & _ & _ & _ & _ & Hcases).
  rewrite Hcases in Hstep. clear Hcases.
  destruct tank as [tank|], p1 as [p1|], p2 as [p2|], tm as [tm|];
    try (injection Hstep as <-; by eexists _, _).
  destruct (outcome (run_metrics group (run_name run_id) setpoint st tank p1 p2 tm))
    as [[loss wh]|e]; [|done].
  injection Hstep as <-. by eexists _, _.
Qed.

(** X12.  When the inner loop returns, each of the two lists of the group
    has exactly one entry per run: ten entries. *)
Theorem X12_one_entry_per_run (file_path : h5file) (group : string)
    (setpoint : number) (groups_service_loss groups_power : list pyobj) :
  outcome (foldM (run_step file_path group setpoint) ([], []) run_ids)
  = Ok (groups_service_loss, groups_power) →
  length groups_service_loss = 10%nat ∧ length groups_power = 10%nat.
Proof.
  intros Hloop.
  pose proof (foldM_invariant
                (fun pre lists => length lists.1 = length pre
                                  ∧ length lists.2 = length pre)
                (run_step file_path group setpoint) ([], []) run_ids
                (groups_service_loss, groups_power)) as Hinv.
  apply Hinv; [done| |done].
  intros pre [losses powers] run_id lists' [H1 H2] Hstep.
  apply run_step_appends in Hstep as (loss & energy & ->).
  cbn [fst snd] in *. rewrite !length_app, H1, H2. done.
Qed.

Lemma X12_one_entry_per_run_witness :
  length (replicate 10 (PyFloat NaN)) = 10%nat
  ∧ length (replicate 10 (PyFloat NaN)) = 10%nat.
Proof.
  apply (X12_one_entry_per_run (H5File ∅) "G" (Fin 5)).
  vm_compute. reflexivity.
Defined.

(** X13.  One run with missing data is enough: when the inner loop returns,
    both lists hold not-a-number, and the four aggregates of the group are
    not-a-number. *)
Theorem X13_one_missing_run_gives_NaN_row (file_path : h5file) (group : string)
    (setpoint : number) (groups_service_loss groups_power : list pyobj)
    (run_id : nat) :
  let base_path := group +:+ "/" +:+ run_name run_id in
  run_id ∈ run_ids →
  outcome (read_data file_path (base_path +:+ "/tank_1_pressure")) = Ok None
  ∨ outcome (read_data file_path (base_path +:+ "/pump_1_power")) = Ok None
  ∨ outcome (read_data file_path (base_path +:+ "/pump_2_power")) = Ok None
  ∨ outcome (read_data file_path (base_path +:+ "/time")) = Ok None →
  outcome (foldM (run_step file_path group setpoint) ([], []) run_ids)
  = Ok (groups_service_loss, groups_power) →
  PyFloat NaN ∈ groups_service_loss
  ∧ PyFloat NaN ∈ groups_power
  ∧ aggregated_row groups_service_loss groups_power = [NaN; NaN; NaN; NaN].
Proof.
  intros base_path Hid Hmissing Hloop.
  assert (Hin : PyFloat NaN ∈ groups_service_loss ∧ PyFloat NaN ∈ groups_power).
  { pose proof (foldM_invariant
                  (fun pre lists =>
                     run_id ∈ pre →
                     PyFloat NaN ∈ lists.1 ∧ PyFloat NaN ∈ lists.2)
                  (run_step file_path group setpoint) ([], []) run_ids
                  (groups_service_loss, groups_power)) as Hinv.
    apply Hinv; [by intros ?%elem_of_nil| |done|done].
    intros pre [losses powers] id lists' Hpre Hstep Hid'.
    apply elem_of_app in Hid' as [Hid'|Hid'].
    - apply run_step_appends in Hstep as (loss & energy & ->).
      destruct (Hpre Hid') as [H1 H2]. simpl in *.
      split; apply elem_of_app; by left.
    - apply list_elem_of_singleton in Hid' as <-.
      rewrite (run_step_missing file_path group setpoint losses powers run_id
                 Hmissing) in Hstep.
      injection Hstep as <-. simpl.
      split; apply elem_of_app; right; by apply list_elem_of_singleton. }
  destruct Hin as [H1 H2]. split; [done|]. split; [done|].
  unfold aggregated_row.
  by rewrite !np_mean_NaN, !np_std_NaN by by apply asarray_float_NaN.
Qed.

Lemma X13_one_missing_run_gives_NaN_row_witness :
  PyFloat NaN ∈ replicate 10 (PyFloat NaN)
  ∧ PyFloat NaN ∈ replicate 10 (PyFloat NaN)
  ∧ aggregated_row (replicate 10 (PyFloat NaN)) (replicate 10 (PyFloat NaN))
    = [NaN; NaN; NaN; NaN].
Proof.
  apply (X13_one_missing_run_gives_NaN_row (H5File ∅) "G" (Fin 5) _ _ 3%nat).
  - unfold run_ids. simpl. set_solver.
  - left. reflexivity.
  - vm_compute. reflexivity.
Defined.

(** *** The table of a pipeline run *)

Lemma foldM_unchanged {A B} (f : A → B → M A) (a : A) (l : list B) :
  (∀ b, b ∈ l → outcome (f a b) = Ok a) → outcome (foldM f a l) = Ok a.
Proof.
  induction l as [|b l IH]; intros Hf; cbn [foldM]; [done|].
  destruct (f a b) as [tr [a'|e]] eqn:Hfab.
  - pose proof (Hf b ltac:(left)) as Hb. rewrite Hfab in Hb.
    injection Hb as ->.
    rewrite (outcome_bind _ _ tr a eq_refl). apply IH.
    intros b' Hb'. apply Hf. by right.
  - pose proof (Hf b ltac:(left)) as Hb. by rewrite Hfab in Hb.
Qed.

Lemma group_step_skips (file_path : h5file) (considered : list string)
    (df : DataFrame) (group : string) :
  (group ∈ considered →
   outcome (read_metadata file_path group "setpoint") = Ok None) →
  outcome (group_step file_path considered df group) = Ok df.
Proof.
  intros Hnone. unfold group_step. case_bool_decide as Hin; cbn [negb]; [|done].
  specialize (Hnone Hin).
  destruct (read_metadata file_path group "setpoint") as [tr [v|e]] eqn:Hsp;
    [|done].
  injection Hnone as ->. by rewrite (outcome_bind _ _ tr None eq_refl).
Qed.

Lemma process_groups_no_setpoint (file_path : h5file)
    (group_names considered : list string) :
  (∀ group, group ∈ group_names → group ∈ considered →
            outcome (read_metadata file_path group "setpoint") = Ok None) →
  outcome (process_groups file_path group_names considered)
  = Ok empty_processed_data.
Proof.
  intros Hnone. unfold process_groups.
  apply foldM_unchanged. intros group Hgroup.
  apply group_step_skips. by apply Hnone.
Qed.

(** X14.  When no allow-listed group of the enumeration has a setpoint, the
    outer loop returns the empty table and raises nothing; such is the case
    of an archive that cannot be opened. *)
Theorem X14_no_setpoint_no_rows :
  (∀ (file_path : h5file) (group_names considered : list string),
      (∀ group, group ∈ group_names → group ∈ considered →
                outcome (read_metadata file_path group "setpoint") = Ok None) →
      outcome (process_groups file_path group_names considered)
      = Ok empty_processed_data)
  ∧ (∀ (msg : string) (group_names considered : list string),
        outcome (process_groups (H5Unavailable msg) group_names considered)
        = Ok empty_processed_data).
Proof.
  split; [apply process_groups_no_setpoint|].
  intros msg group_names considered. by apply process_groups_no_setpoint.
Qed.

Lemma X14_no_setpoint_no_rows_witness :
  outcome (process_groups (H5File {[ "A" := H5Group ∅ ]}) ["A"; "B"] ["A"])
  = Ok empty_processed_data.
Proof.
  apply (proj1 X14_no_setpoint_no_rows).
  intros group Hgroup Hcons.
  apply list_elem_of_singleton in Hcons as ->. reflexivity.
Defined.

Lemma df_index_loc_set_new (group : string) (values : list number)
    (df : DataFrame) :
  group ∉ df_index df →
  df_index (loc_set group values df) = df_index df ++ [group].
Proof.
  unfold df_index, loc_set. cbn [df_rows].
  induction (df_rows df) as [|[l v] rows IH]; cbn [loc_set_rows]; intros Hnew.
  - done.
  - case_decide as Hl.
    + subst l. destruct Hnew. rewrite fmap_cons. by left.
    + rewrite !fmap_cons. cbn [fst]. rewrite fmap_cons in Hnew.
      rewrite IH; [done|]. intros Hin. apply Hnew. by right.
Qed.

Lemma loc_set_rows_widths (group : string) (values : list number)
    (rows : list (string * list number)) (n : nat) :
  length values = n →
  Forall (fun r => length r.2 = n) rows →
  Forall (fun r => length r.2 = n) (loc_set_rows group values rows).
Proof.
  intros Hv. induction rows as [|[l v] rows IH]; cbn [loc_set_rows]; intros Hrows.
  - by repeat constructor.
  - apply Forall_cons in Hrows as [Hr Hrows]. case_decide.
    + by constructor.
    + constructor; [done|]. by apply IH.
Qed.

(** X15.  For an enumeration without repeated names, the table the outer
    loop returns has its rows in the order of the enumeration: one row for
    each allow-listed group that has a setpoint and no other row.  It keeps
    its four columns, and every row has four values. *)
Theorem X15_rows_in_enumeration_order (file_path : h5file)
    (group_names considered : list string) (table : DataFrame) :
  NoDup group_names →
  outcome (process_groups file_path group_names considered) = Ok table →
  df_index table = aggregated_groups file_path group_names considered
  ∧ df_columns table
    = ["power_mean"; "power_std"; "service_loss_mean"; "service_loss_std"]
  ∧ Forall (fun r => length r.2 = 4%nat) (df_rows table).
Proof.
  intros Hnodup Hloop. unfold process_groups in Hloop.
  pose proof (foldM_invariant_split
    (fun pre df =>
       df_index df = aggregated_groups file_path pre considered
       ∧ df_columns df = df_columns empty_processed_data
       ∧ Forall (fun r => length r.2 = 4%nat) (df_rows df))
    (group_step file_path considered) empty_processed_data group_names table)
    as Hinv.
  apply Hinv; [by repeat split| |done]. clear Hinv Hloop.
  intros pre group post df df' Hsplit (Hindex & Hcols & Hrows) Hstep.
  unfold aggregated_groups in *. rewrite filter_app.
  apply group_step_cases in Hstep
    as [[Hout ->]|[(Hin & Hnone & ->)|(Hin & sp & losses & powers & Hsp & Hruns & ->)]].
  - rewrite filter_cons_False by tauto. by rewrite filter_nil, app_nil_r.
  - rewrite filter_cons_False.
    + by rewrite filter_nil, app_nil_r.
    + unfold setpoint_of. rewrite Hnone. intros [_ [? ?]]. done.
  - rewrite filter_cons_True.
    2:{ split; [done|]. unfold setpoint_of. rewrite Hsp. by eexists. }
    rewrite filter_nil. split; [|split; [done|]].
    + rewrite <- Hindex. apply df_index_loc_set_new.
      rewrite Hindex. intros Hg%list_elem_of_filter. destruct Hg as [_ Hg].
      rewrite Hsplit in Hnodup. apply NoDup_app in Hnodup as (_ & Hdisj & _).
      apply (Hdisj group Hg). by left.
    + by apply loc_set_rows_widths.
Qed.

Lemma X15_rows_in_enumeration_order_witness :
  let file := H5File {[ "A" := H5Group {[ "setpoint" := AttrFloat (Fin 5) ]} ]} in
  let table := loc_set "A" [NaN; NaN; NaN; NaN] empty_processed_data in
  df_index table = aggregated_groups file ["B"; "A"] ["A"]
  ∧ df_columns table
    = ["power_mean"; "power_std"; "service_loss_mean"; "service_loss_std"]
  ∧ Forall (fun r => length r.2 = 4%nat) (df_rows table).
Proof.
  intros file table.
  apply (X15_rows_in_enumeration_order file ["B"; "A"] ["A"] table).
  - apply NoDup_cons. split; [by intros ?%list_elem_of_singleton|].
    apply NoDup_singleton.
  - vm_compute. reflexivity.
Defined.

(** X16.  [main] hands to the plot what the outer loop computed: when the
    loop returns a table with at least one row, [main] stores it under
    ["plotdata"] with the five labels, reads back that table and those
    labels, and leaves every group of the output archive that is neither on
    the path of ["plotdata"] nor below it as it was; when the loop returns
    the table without rows (no group has a setpoint), nothing is stored and
    [main] raises [KeyError]; when the loop raises, [main] raises the same
    exception. *)
Theorem X16_main_stores_and_reads_back (file_path : h5file)
    (data_archive : hdf_group) :
  let group_names :=
    generate_group_name (Lst controllers) (Lst topologies) (Lst disruptions) in
  (∀ table,
      outcome (process_groups file_path group_names considered_groups) = Ok table →
      df_empty table = false →
      ∃ data_archive',
        outcome (main file_path data_archive)
        = Ok (table, plot_metadata, data_archive')
        ∧ get_node ["plotdata"] data_archive'
          = Some (Group (Some (mkStorer table {[ "metadata" := plot_metadata ]})) ∅)
        ∧ (∀ key, apart ["plotdata"] key →
                  get_node key data_archive' = get_node key data_archive))
  ∧ (∀ table,
        outcome (process_groups file_path group_names considered_groups) = Ok table →
        df_empty table = true →
        outcome (main file_path data_archive) = Raise KeyError)
  ∧ (∀ e,
        outcome (process_groups file_path group_names considered_groups)
        = Raise e →
        outcome (main file_path data_archive) = Raise e).
Proof.
  intros group_names. unfold main. fold group_names. split; [|split].
  - intros table Htable Hrows.
    destruct (process_groups file_path group_names considered_groups)
      as [tr [table'|e]] eqn:Hloop; [|done].
    injection Htable as ->.
    rewrite (outcome_bind _ _ tr table eq_refl).
    rewrite save_unit, bind_ret_l by done.
    rewrite (read_unit _ _ _ _ _ (get_node_put _ _ _)).
    rewrite lookup_singleton_eq, bind_ret_l.
    eexists. split; [done|]. split.
    + apply get_node_put.
    + intros key Hkey. by apply get_node_put_apart.
  - intros table Htable Hrows.
    destruct (process_groups file_path group_names considered_groups)
      as [tr [table'|e]] eqn:Hloop; [|done].
    injection Htable as ->.
    rewrite (outcome_bind _ _ tr table eq_refl).
    by rewrite save_empty.
  - intros e He. by apply outcome_bind_raise.
Qed.

Lemma X16_main_stores_and_reads_back_witness :
  let file :=
    H5File {[ "PID_Central_BlockageConstant"
              := H5Group {[ "setpoint" := AttrFloat (Fin 5) ]} ]} in
  let table :=
    loc_set "PID_Central_BlockageConstant" [NaN; NaN; NaN; NaN]
      empty_processed_data in
  (∃ data_archive',
      outcome (main file empty_group)
      = Ok (table, plot_metadata, data_archive')
      ∧ get_node ["plotdata"] data_archive'
        = Some (Group (Some (mkStorer table {[ "metadata" := plot_metadata ]})) ∅)
      ∧ (∀ key, apart ["plotdata"] key →
                get_node key data_archive' = get_node key empty_group))
  ∧ outcome (main (H5Unavailable "no file") empty_group) = Raise KeyError.
Proof.
  intros file table. split.
  - apply (proj1 (X16_main_stores_and_reads_back file empty_group) table).
    + vm_compute. reflexivity.
    + reflexivity.
  - apply (proj1 (proj2 (X16_main_stores_and_reads_back
                           (H5Unavailable "no file") empty_group))
             empty_processed_data).
    + by apply process_groups_no_setpoint.
    + reflexivity.
Defined.

(* ===================================================================== *)
(** ** Further properties of the result store and of the aggregation *)
(* ===================================================================== *)

(** X17.  Saving replaces the whole unit: for a table with at least one row
    and one column, whatever the store held at the key and below it, it then
    holds at the key the new table with the metadata as its only attribute
    and nothing below the key, and every group that is neither on the path
    of the key nor below it is as before; so saving twice at a key leaves
    the store the last save alone would leave. *)
Theorem X17_save_replaces_the_unit (df1 df2 : DataFrame)
    (group_name : list string) (metadata1 metadata2 : gmap string string)
    (store : hdf_group) :
  is_key group_name →
  df_empty df1 = false →
  df_empty df2 = false →
  (∃ store',
      save_dataframe_in_hdf5_with_metadata df1 store group_name metadata1
      = mret store'
      ∧ get_node group_name store'
        = Some (Group (Some (mkStorer df1 {[ "metadata" := metadata1 ]})) ∅)
      ∧ (∀ below, below ≠ [] → get_node (group_name ++ below) store' = None)
      ∧ (∀ key, apart group_name key →
                get_node key store' = get_node key store))
  ∧ (store1 ← save_dataframe_in_hdf5_with_metadata df1 store group_name metadata1;
     save_dataframe_in_hdf5_with_metadata df2 store1 group_name metadata2)
    = save_dataframe_in_hdf5_with_metadata df2 store group_name metadata2.
Proof.
  intros [Hkey _] Hdf1 Hdf2. split.
  - eexists. split; [by apply save_unit|]. split; [|split].
    + apply get_node_put.
    + intros below Hbelow. rewrite get_node_put_below.
      by apply get_node_below_leaf.
    + intros key Hap. by apply get_node_put_apart.
  - rewrite !save_unit, bind_ret_l by done.
    rewrite save_unit by done. by rewrite put_node_put.
Qed.

Lemma X17_save_replaces_the_unit_witness :
  let T1 := loc_set "A" [Fin 1; Fin 2; Fin 3; Fin 4] empty_processed_data in
  let T2 := loc_set "B" [Fin 5; Fin 6; Fin 7; Fin 8] empty_processed_data in
  (store1 ← save_dataframe_in_hdf5_with_metadata T1 empty_group ["a"; "b"] ∅;
   save_dataframe_in_hdf5_with_metadata T2 store1 ["a"; "b"] plot_metadata)
  = save_dataframe_in_hdf5_with_metadata T2 empty_group ["a"; "b"] plot_metadata.
Proof.
  intros T1 T2.
  apply (X17_save_replaces_the_unit T1 T2 ["a"; "b"] ∅ plot_metadata empty_group).
  - split; [done|]. by repeat constructor.
  - reflexivity.
  - reflexivity.
Defined.

(** X18.  Reading a key at which the store has no group raises [KeyError];
    reading a plain group, one that holds no unit, raises [TypeError];
    reading a unit that has no metadata attribute raises [AttributeError];
    and a save of a table with at least one row and one column at one key
    does not change what reading another key gives, when neither key lies on
    the path of the other. *)
Theorem X18_read_failures_and_other_keys :
  (∀ (store : hdf_group) (group_path : list string),
      get_node group_path store = None →
      read_plot_data store group_path = raise KeyError)
  ∧ (∀ (store : hdf_group) (group_path : list string) children,
        get_node group_path store = Some (Group None children) →
        read_plot_data store group_path = raise TypeError)
  ∧ (∀ (store : hdf_group) (group_path : list string) (st : storer) children,
        get_node group_path store = Some (Group (Some st) children) →
        st_attrs st !! "metadata" = None →
        read_plot_data store group_path = raise AttributeError)
  ∧ (∀ (df : DataFrame) (store : hdf_group)
       (group_name group_path : list string) (metadata : gmap string string),
        is_key group_name →
        df_empty df = false →
        apart group_name group_path →
        (store' ← save_dataframe_in_hdf5_with_metadata df store group_name metadata;
         read_plot_data store' group_path)
        = read_plot_data store group_path).
Proof.
  split; [|split; [|split]].
  - intros store group_path Hnone. unfold read_plot_data, get_storer.
    by rewrite Hnone.
  - intros store group_path children Hnode. unfold read_plot_data, get_storer.
    by rewrite Hnode.
  - intros store group_path [df attrs] children Hnode Hattr.
    rewrite (read_unit _ _ _ _ _ Hnode). cbn [st_attrs] in Hattr.
    by rewrite Hattr.
  - intros df store group_name group_path metadata [Hkey _] Hdf Hap.
    rewrite save_unit, bind_ret_l by done.
    unfold read_plot_data, get_storer. by rewrite get_node_put_apart.
Qed.

Lemma X18_read_failures_and_other_keys_witness :
  let T := loc_set "A" [Fin 1; Fin 2; Fin 3; Fin 4] empty_processed_data in
  read_plot_data empty_group ["plotdata"] = raise KeyError
  ∧ read_plot_data (put_node ["a"; "b"] (Group (Some (mkStorer T ∅)) ∅) empty_group) ["a"]
    = raise TypeError
  ∧ read_plot_data (put_node ["a"; "b"] (Group (Some (mkStorer T ∅)) ∅) empty_group)
      ["a"; "b"]
    = raise AttributeError
  ∧ (store' ← save_dataframe_in_hdf5_with_metadata T empty_group ["plotdata"]
                plot_metadata;
     read_plot_data store' ["other"])
    = read_plot_data empty_group ["other"].
Proof.
  intros T.
  destruct X18_read_failures_and_other_keys as (Hkey & Hplain & Hattr & Hother).
  split; [|split; [|split]].
  - by apply Hkey.
  - by apply (Hplain _ _ {[ "b" := Group (Some (mkStorer T ∅)) ∅ ]}).
  - by apply (Hattr _ _ (mkStorer T ∅) ∅).
  - apply Hother.
    + split; [done|]. by repeat constructor.
    + reflexivity.
    + split; intros [rest Heq]; done.
Defined.


(** *** Not-a-number in a signal *)

Lemma mul_NaN_r (x : number) : Num.mul x NaN = NaN.
Proof. by destruct x. Qed.

Lemma mul_NaN_l (x : number) : Num.mul NaN x = NaN.
Proof. reflexivity. Qed.

(** The loop of [integral_with_time_step] once it has met a sample that is
    not-a-number. *)
Lemma integral_loop_NaN (data time_steps : list number) (j k : nat) :
  length data = length time_steps →
  (k + 1 <= length data)%nat →
  data !! j = Some NaN →
  (∃ i, (i < k)%nat ∧ (i = j ∨ i + 1 = j)%nat) →
  foldM (fun integral i =>
      t1 ← index time_steps (i + 1);
      t0 ← index time_steps i;
      let dt := Num.sub t1 t0 in
      d0 ← index data i;
      d1 ← index data (i + 1);
      mret (Num.add integral
              (Num.mul (Num.mul (Fin 0.5) (Num.add d0 d1)) dt)))
    (Fin 0) (seq 0 k) = mret NaN.
Proof.
  intros Hlen Hk Hj. induction k as [|k IH]; intros (i & Hi & Hij); [lia|].
  destruct (integral_loop_total data time_steps k (Fin 0) Hlen) as [v Hv]; [lia|].
  rewrite seq_S, foldM_app.
  destruct (lookup_lt_is_Some_2 time_steps (k + 1)) as [t1 Ht1]; [lia|].
  destruct (lookup_lt_is_Some_2 time_steps k) as [t0 Ht0]; [lia|].
  destruct (lookup_lt_is_Some_2 data k) as [d0 Hd0]; [lia|].
  destruct (lookup_lt_is_Some_2 data (k + 1)) as [d1 Hd1]; [lia|].
  destruct (decide (i < k)%nat) as [Hlt|Hge].
  - rewrite IH by (lia || eauto). rewrite bind_ret_l. cbn [foldM Nat.add].
    rewrite (index_lookup _ _ _ Ht1), (index_lookup _ _ _ Ht0),
      (index_lookup _ _ _ Hd0), (index_lookup _ _ _ Hd1).
    by rewrite !bind_ret_l.
  - assert (i = k) as -> by lia. rewrite Hv, bind_ret_l. cbn [foldM Nat.add].
    rewrite (index_lookup _ _ _ Ht1), (index_lookup _ _ _ Ht0),
      (index_lookup _ _ _ Hd0), (index_lookup _ _ _ Hd1).
    rewrite !bind_ret_l. f_equal. f_equal.
    assert (Hsum : Num.add d0 d1 = NaN).
    { destruct Hij as [->|<-].
      - rewrite Hj in Hd0. by injection Hd0 as <-.
      - rewrite Hj in Hd1. injection Hd1 as <-. apply add_NaN_r. }
    by rewrite Hsum, mul_NaN_r, mul_NaN_l, add_NaN_r.
Qed.

(** X20.  One sample that is not-a-number in a signal of at least two
    samples makes the integral not-a-number; the function still returns,
    without a warning. *)
Theorem X20_integral_propagates_NaN (data time_steps : list number) :
  length data = length time_steps →
  (2 <= length data)%nat →
  NaN ∈ data →
  integral_with_time_step data time_steps = mret (PyFloat NaN).
Proof.
  intros Hlen Hlong Hnan. apply list_elem_of_lookup in Hnan as [j Hj].
  pose proof (lookup_lt_Some _ _ _ Hj) as Hjlt.
  unfold integral_with_time_step.
  rewrite Hlen, Nat.eqb_refl. simpl negb. cbv iota. unfold range. rewrite <- Hlen.
  replace (Z.to_nat (Z.of_nat (length data) - 1)) with (length data - 1)%nat by lia.
  pose proof (integral_loop_NaN data time_steps j (length data - 1) Hlen) as Hloop.
  cbv zeta in Hloop. rewrite Hloop; [by rewrite bind_ret_l|lia|done|].
  destruct (decide (j + 1 < length data)%nat).
  - exists j. split; [lia|by left].
  - exists (j - 1)%nat. split; [lia|right; lia].
Qed.

Lemma X20_integral_propagates_NaN_witness :
  integral_with_time_step [Fin 1; NaN; Fin 3] [Fin 0; Fin 1; Fin 2]
  = mret (PyFloat NaN).
Proof.
  apply X20_integral_propagates_NaN.
  - reflexivity.
  - simpl. lia.
  - set_solver.
Defined.

(* ===================================================================== *)
(** ** The plot *)
(* ===================================================================== *)

Lemma filter_none {A} (P : A → Prop) `{∀ x, Decision (P x)} (l : list A) :
  (∀ x, x ∈ l → ¬ P x) → filter P l = [].
Proof.
  induction l as [|x l IH]; intros Hnone; [done|].
  rewrite filter_cons_False by (apply Hnone; left).
  apply IH. intros y Hy. apply Hnone. by right.
Qed.

Lemma rows_of_unique (label : string) (values : list number) (df : DataFrame) :
  NoDup (df_index df) →
  (label, values) ∈ df_rows df →
  rows_of label df = [(label, values)].
Proof.
  unfold rows_of, df_index.
  induction (df_rows df) as [|[l v] rows IH]; intros Hnodup Hin.
  - by apply elem_of_nil in Hin.
  - rewrite fmap_cons in Hnodup. apply NoDup_cons in Hnodup as [Hl Hnodup].
    apply elem_of_cons in Hin as [[= <- <-]|Hin].
    + rewrite filter_cons_True by done. f_equal.
      apply filter_none. intros [l' v'] Hin' Heq.
      simpl in Heq. subst l'. apply Hl.
      apply list_elem_of_fmap. by exists (label, v').
    + rewrite filter_cons_False; [by apply IH|].
      simpl. intros ->. apply Hl.
      apply list_elem_of_fmap. by exists (label, values).
Qed.

Lemma index_in_range {A} (xs : list A) (i : nat) (d : A) :
  (i < length xs)%nat → index xs i = mret (nth i xs d).
Proof.
  intros Hi. apply index_lookup.
  destruct (nth_lookup_or_length xs i d) as [->|?]; [done|lia].
Qed.

(** One cell of a table whose labels are all different. *)
Lemma df_loc_cell (label col : string) (values : list number) (df : DataFrame)
    (i : nat) :
  NoDup (df_index df) →
  (label, values) ∈ df_rows df →
  column_position col (df_columns df) = mret i →
  (i < length values)%nat →
  df_loc label col df = mret [nth i values NaN].
Proof.
  intros Hnodup Hin Hcol Hi. unfold df_loc.
  rewrite Hcol, bind_ret_l, (rows_of_unique label values) by done.
  cbn [foldM]. rewrite (index_in_range _ _ NaN) by done.
  by rewrite !bind_ret_l.
Qed.

Lemma dict_get_present (d : gmap string string) (key v : string) :
  d !! key = Some v → dict_get d key = mret v.
Proof. unfold dict_get. by intros ->. Qed.

Lemma dict_get_absent (d : gmap string string) (key : string) :
  d !! key = None → dict_get d key = raise KeyError.
Proof. unfold dict_get. by intros ->. Qed.

(** The loop of the plot over the labels of a well-formed table. *)
Lemma plot_loop (df : DataFrame) :
  df_columns df
  = ["power_mean"; "power_std"; "service_loss_mean"; "service_loss_std"] →
  NoDup (df_index df) →
  Forall (fun r => length r.2 = 4%nat) (df_rows df) →
  foldM (fun bars label =>
      x ← df_loc label "service_loss_mean" df;
      y ← df_loc label "power_mean" df;
      xerr ← df_loc label "service_loss_std" df;
      yerr ← df_loc label "power_std" df;
      mret (bars ++ [mkErrorbar x y xerr yerr "o" label]))
    [] (df_index df)
  = mret (point_of_row <$> df_rows df).
Proof.
  intros Hcols Hnodup Hwidth.
  assert (Hgen : ∀ post pre bars,
    df_rows df = pre ++ post →
    foldM (fun bars label =>
        x ← df_loc label "service_loss_mean" df;
        y ← df_loc label "power_mean" df;
        xerr ← df_loc label "service_loss_std" df;
        yerr ← df_loc label "power_std" df;
        mret (bars ++ [mkErrorbar x y xerr yerr "o" label]))
      bars (fst <$> post)
    = mret (bars ++ (point_of_row <$> post))).
  { induction post as [|[l v] post IH]; intros pre bars Hsplit.
    - cbn [fmap list_fmap foldM]. by rewrite app_nil_r.
    - rewrite fmap_cons. cbn [foldM fst].
      assert (Hin : (l, v) ∈ df_rows df).
      { rewrite Hsplit. apply elem_of_app. right. by left. }
      assert (Hv : length v = 4%nat).
      { rewrite Forall_forall in Hwidth. exact (Hwidth (l, v) Hin). }
      rewrite (df_loc_cell l "service_loss_mean" v df 2),
        bind_ret_l by (done || (rewrite Hcols; reflexivity) || lia).
      rewrite (df_loc_cell l "power_mean" v df 0),
        bind_ret_l by (done || (rewrite Hcols; reflexivity) || lia).
      rewrite (df_loc_cell l "service_loss_std" v df 3),
        bind_ret_l by (done || (rewrite Hcols; reflexivity) || lia).
      rewrite (df_loc_cell l "power_std" v df 1),
        bind_ret_l by (done || (rewrite Hcols; reflexivity) || lia).
      rewrite bind_ret_l.
      rewrite (IH (pre ++ [(l, v)])) by by rewrite <- app_assoc.
      by rewrite <- app_assoc. }
  exact (Hgen (df_rows df) [] [] eq_refl).
Qed.

(** X21.  For a table with the four columns of the pipeline, labels that are
    all different and rows of four values, the plot draws one error bar per
    row, in the order of the rows: the mean service loss along x with its
    deviation, the mean power along y with its deviation, marked ["o"] and
    named by the label of the row.  The axis labels and the legend title are
    the entries of the metadata; when one of the three is not there the
    function raises [KeyError]. *)
Theorem X21_plot_one_point_per_row (processed_data : DataFrame)
    (plot_format_data : gmap string string) :
  df_columns processed_data
  = ["power_mean"; "power_std"; "service_loss_mean"; "service_loss_std"] →
  NoDup (df_index processed_data) →
  Forall (fun r => length r.2 = 4%nat) (df_rows processed_data) →
  (∀ xlabel ylabel legend_title : string,
      plot_format_data !! "x_label" = Some xlabel →
      plot_format_data !! "y_label" = Some ylabel →
      plot_format_data !! "legend_title" = Some legend_title →
      plot_service_loss_vs_power processed_data plot_format_data
      = mret (mkFigure (point_of_row <$> df_rows processed_data)
                xlabel ylabel legend_title true))
  ∧ (plot_format_data !! "x_label" = None
     ∨ plot_format_data !! "y_label" = None
     ∨ plot_format_data !! "legend_title" = None →
     plot_service_loss_vs_power processed_data plot_format_data
     = raise KeyError).
Proof.
  intros Hcols Hnodup Hwidth. unfold plot_service_loss_vs_power.
  rewrite (plot_loop processed_data Hcols Hnodup Hwidth), bind_ret_l.
  split.
  - intros xlabel ylabel legend_title Hx Hy Hl.
    rewrite (dict_get_present _ _ _ Hx), bind_ret_l.
    rewrite (dict_get_present _ _ _ Hy), bind_ret_l.
    by rewrite (dict_get_present _ _ _ Hl), bind_ret_l.
  - destruct (plot_format_data !! "x_label") as [xl|] eqn:Hx.
    2:{ intros _. by rewrite (dict_get_absent _ _ Hx). }
    rewrite (dict_get_present _ _ _ Hx), bind_ret_l.
    destruct (plot_format_data !! "y_label") as [yl|] eqn:Hy.
    2:{ intros _. by rewrite (dict_get_absent _ _ Hy). }
    rewrite (dict_get_present _ _ _ Hy), bind_ret_l.
    intros [?|[?|Hl]]; try done.
    by rewrite (dict_get_absent _ _ Hl).
Qed.

Lemma X21_plot_one_point_per_row_witness :
  let table := loc_set "A" [Fin 40; Fin 1; Fin 50; Fin 2] empty_processed_data in
  plot_service_loss_vs_power table plot_metadata
  = mret (mkFigure [mkErrorbar [Fin 50] [Fin 40] [Fin 2] [Fin 1] "o" "A"]
            "Service loss" "Energy consumption" "Configuration" true).
Proof.
  intros table.
  apply (proj1 (X21_plot_one_point_per_row table plot_metadata
                  eq_refl ltac:(apply NoDup_singleton)
                  ltac:(by repeat constructor)));
    by vm_compute.
Defined.

(* ===================================================================== *)
(** ** Tagging and publishing *)
(* ===================================================================== *)

Section Publishing.
Context `{OS}.

Lemma lift_ok {A B} (a : A) (k : A → M B) : lift (Ok a) ≫= k = k a.
Proof. apply bind_ret_l. Qed.

(** The loop over the sources announces no publication. *)
Lemma copy_loop_traced (output_dir : string) (fs : FS) (sources : list string) :
  traced (fun ev => ¬ is_publication ev)
    (foldM (fun fs src =>
        if path_exists src fs then
          let dest_filename := path_basename src in
          let dest_path := path_join output_dir dest_filename in
          fs ← lift (copy src dest_path fs);
          emit (Print ("Copied: " +:+ src +:+ " -> " +:+ dest_path));;
          mret fs
        else mret fs)
      fs sources).
Proof.
  apply traced_foldM. intros fs' src _.
  destruct (path_exists src fs'); [|apply traced_ret].
  cbv zeta. apply traced_bind; [by apply traced_pure|intros ? _].
  apply traced_bind; [|intros ? _; apply traced_ret].
  apply traced_emit. intros [d Hd]. simpl in Hd. discriminate Hd.
Qed.

Lemma tagplot_traced (fig : Figure) (source_paths : str_or_list)
    (destination_path id_method prefix : string) (w : world) :
  traced (fun ev => ¬ is_publication ev)
    (tagplot fig source_paths destination_path id_method prefix w).
Proof.
  unfold tagplot. cbv zeta.
  apply traced_bind; [by apply traced_pure|intros ? _].
  apply traced_bind; [by apply traced_pure|intros ? _].
  apply traced_bind.
  { apply traced_emit. intros [d Hd]. simpl in Hd. discriminate Hd. }
  intros _ _.
  apply traced_bind; [apply copy_loop_traced|intros ? _].
  apply traced_bind; [by apply traced_pure|intros ? _].
  apply traced_ret.
Qed.

(** What [tagplot] returns and where it leaves the module variable. *)
Lemma tagplot_returns (fig : Figure) (source_paths : str_or_list)
    (destination_path id_method prefix plot_id : string) (w w' : world) :
  outcome (tagplot fig source_paths destination_path id_method prefix w)
  = Ok (plot_id, w') →
  plot_id = (if decide (id_method = "time") then prefix +:+ "_" +:+ timestamp
             else prefix)
  ∧ w_last_output_dir w' = Some (path_join destination_path plot_id).
Proof.
  unfold tagplot. cbv zeta. intros Hret.
  apply outcome_bind_inv in Hret as (fs1 & _ & Hret).
  apply outcome_bind_inv in Hret as (fs2 & _ & Hret).
  apply outcome_bind_inv in Hret as (? & _ & Hret).
  apply outcome_bind_inv in Hret as (fs3 & _ & Hret).
  apply outcome_bind_inv in Hret as (fs4 & _ & Hret).
  by injection Hret as <- <-.
Qed.

(** X22.  When [publish_plot] returns, the module variable holds the
    directory of this call: the destination joined with the prefix, an
    underscore and the time stamp; and the last three lines printed are the
    announcement of that directory between two rules, whatever directory an
    earlier call had left in the variable. *)
Theorem X22_publish_plot_announces_its_directory (fig : Figure)
    (source_paths : str_or_list) (destination_path : string) (w w' : world) :
  let output_dir :=
    path_join destination_path ("GdD_WS_2526_3774919" +:+ "_" +:+ timestamp) in
  output_dir ≠ "" →
  outcome (publish_plot fig source_paths destination_path w) = Ok w' →
  w_last_output_dir w' = Some output_dir
  ∧ trace (publish_plot fig source_paths destination_path w)
    = trace (tagplot fig source_paths destination_path
               "time" "GdD_WS_2526_3774919" w)
      ++ [Print (newline +:+ rule);
          Print ("Published to: " +:+ output_dir);
          Print (rule +:+ newline)].
Proof.
  intros output_dir Hdir. unfold publish_plot.
  destruct (tagplot fig source_paths destination_path
              "time" "GdD_WS_2526_3774919" w) as [tr [[plot_id w1]|e]] eqn:Htag;
    [|done].
  destruct (tagplot_returns fig source_paths destination_path
              "time" "GdD_WS_2526_3774919" plot_id w w1) as [Hid Hlast].
  { by rewrite Htag. }
  rewrite decide_True in Hid by done. subst plot_id. fold output_dir in Hlast.
  rewrite (bind_ok _ _ tr (_, w1) eq_refl).
  unfold publish. rewrite Hlast, decide_False by done.
  assert (Hpub :
    ((emit (Print (newline +:+ rule));;
      emit (Print ("Published to: " +:+ output_dir));;
      emit (Print (rule +:+ newline)));;
     mret w1)
    = ([Print (newline +:+ rule); Print ("Published to: " +:+ output_dir);
        Print (rule +:+ newline)], Ok w1)) by reflexivity.
  rewrite Hpub. cbn [outcome trace fst snd]. by intros [= <-].
Qed.

(** X23.  When [publish_plot] raises (an operation on the file system
    failed while tagging), no publication is announced. *)
Theorem X23_no_announcement_after_failure (fig : Figure)
    (source_paths : str_or_list) (destination_path : string) (w : world)
    (e : exn) :
  outcome (publish_plot fig source_paths destination_path w) = Raise e →
  Forall (fun ev => ¬ is_publication ev)
         (trace (publish_plot fig source_paths destination_path w)).
Proof.
  unfold publish_plot. intros Hraise.
  pose proof (tagplot_traced fig source_paths destination_path
                "time" "GdD_WS_2526_3774919" w) as Htr.
  destruct (tagplot fig source_paths destination_path
              "time" "GdD_WS_2526_3774919" w) as [tr [[plot_id w1]|e']] eqn:Htag.
  - rewrite (bind_ok _ _ tr (_, w1) eq_refl) in Hraise.
    unfold publish in Hraise.
    destruct (w_last_output_dir w1) as [d|]; [destruct (decide (d = ""))|];
      discriminate Hraise.
  - exact Htr.
Qed.

End Publishing.

Lemma X22_publish_plot_announces_its_directory_witness :
  let fig := mkFigure [] "Service loss" "Energy consumption" "Configuration" true in
  let w := @mkWorld files_os [("main.py", "code")] None in
  let output_dir :=
    @path_join files_os "plotid"
      ("GdD_WS_2526_3774919" +:+ "_" +:+ @timestamp files_os) in
  let w' := @mkWorld files_os
              [(output_dir +:+ "/required_imports.txt",
                "numpy" +:+ newline +:+ "pandas" +:+ newline
                +:+ "matplotlib" +:+ newline +:+ "h5py" +:+ newline);
               (output_dir +:+ "/main.py", "code");
               (output_dir +:+ "/GdD_WS_2526_3774919_20260209_084745.png",
                "png");
               ("main.py", "code")]
              (Some output_dir) in
  w_last_output_dir w' = Some output_dir
  ∧ trace (@publish_plot files_os fig (Lst ["main.py"; "absent.py"]) "plotid" w)
    = trace (@tagplot files_os fig (Lst ["main.py"; "absent.py"]) "plotid"
               "time" "GdD_WS_2526_3774919" w)
      ++ [Print (newline +:+ rule);
          Print ("Published to: " +:+ output_dir);
          Print (rule +:+ newline)].
Proof.
  intros fig w output_dir w'.
  refine (@X22_publish_plot_announces_its_directory files_os fig
            (Lst ["main.py"; "absent.py"]) "plotid" w w' _ _).
  - discriminate.
  - vm_compute. reflexivity.
Defined.

Lemma X23_no_announcement_after_failure_witness :
  let fig := mkFigure [] "Service loss" "Energy consumption" "Configuration" true in
  let w := @mkWorld no_directory_os [] None in
  Forall (fun ev => ¬ is_publication ev)
         (trace (@publish_plot no_directory_os fig (Lst ["main.py"]) "plotid" w)).
Proof.
  intros fig w.
  apply (@X23_no_announcement_after_failure no_directory_os fig
           (Lst ["main.py"]) "plotid" w TypeError).
  reflexivity.
Defined.
